(** * Budget-Box: derived metrics, the client budget store, the sync
      coordinator and the [/budget/sync] handler.

    The development follows the TypeScript sources:
    - [frontend/src/lib/budget.ts]        ([getTotals], [getWarnings]),
    - [frontend/src/store/budgetStore.ts] (the Zustand store and its actions),
    - the page component                  ([syncToServer], [fetchLatest]),
    - [backend/src/server.ts]             (the Express handlers).

    JavaScript numbers are IEEE-754 binary64 values; they are modelled by
    Rocq's primitive floats, so that [+], [-], [/], [<] and the truthiness
    test behave on zeros, infinities and NaN as they do in the program. *)

From Stdlib Require Import Floats ZArith Lia List Bool.
From stdpp Require Import base option list strings gmap pretty.
Import ListNotations.

Local Open Scope float_scope.

(* Decimal literals such as 0.4 denote the nearest binary64 value, as they do
   in JavaScript. *)
#[local] Set Warnings "-inexact-float".

(** ** JavaScript numbers *)

Module Js.

Abbreviation number := float.

(** [ToBoolean] on a number: [+0], [-0] and [NaN] are falsy. *)
Definition truthy (x : number) : bool :=
  negb (PrimFloat.eqb x 0 || PrimFloat.is_nan x).

(** [x > y] is [y < x]; both are false as soon as an operand is NaN. *)
Definition gt (x y : number) : bool := PrimFloat.ltb y x.
Definition lt (x y : number) : bool := PrimFloat.ltb x y.

(** [a ?? b] on an optional value ([undefined] and [null] are [None]). *)
Definition nullish {A} (a : option A) (b : A) : A :=
  match a with Some x => x | None => b end.

(** [a ?? b] when [b] may itself be [undefined]. *)
Definition nullish_opt {A} (a b : option A) : option A :=
  match a with Some x => Some x | None => b end.

(** Truthiness of a string: only the empty string is falsy. *)
Definition truthy_string (s : string) : bool :=
  match s with EmptyString => false | String _ _ => true end.

End Js.

(** ** Data model (budgetStore.ts) *)

Record BudgetFields := mkBudget {
  income : Js.number;
  monthlyBills : Js.number;
  food : Js.number;
  transport : Js.number;
  subscriptions : Js.number;
  miscellaneous : Js.number
}.

(** ** Derived metrics (lib/budget.ts) *)

Record Totals := mkTotals {
  expenses : Js.number;
  burnRate : Js.number;
  savings : Js.number;
  monthEndPrediction : Js.number
}.

Definition getTotals (budget : BudgetFields) : Totals :=
  let expenses :=
    monthlyBills budget + food budget + transport budget
    + subscriptions budget + miscellaneous budget in
  let burnRate :=
    if Js.truthy (income budget) then expenses / income budget else 0 in
  let savings := income budget - expenses in
  let monthEndPrediction := savings in
  mkTotals expenses burnRate savings monthEndPrediction.

(** ** Anomaly warnings (lib/budget.ts) *)

Definition warn_food : string :=
  "Food spend is above 40% of income — trim dining/groceries.".
Definition warn_subscriptions : string :=
  "Subscriptions exceed 30% of income — cancel unused apps.".
Definition warn_overspend : string :=
  "Your expenses are higher than income — cut variable costs.".
Definition warn_burnRate : string :=
  "Burn rate is above 1.0 — you will run out before month-end.".

(** [if (c) { warnings.push(msg) }] on the array built so far. *)
Definition push_if (c : bool) (msg : string) (warnings : list string) : list string :=
  if c then warnings ++ [msg] else warnings.

Definition getWarnings (budget : BudgetFields) : list string :=
  let t := getTotals budget in
  let warnings := [] in
  let warnings :=
    push_if (Js.gt (income budget) 0 && Js.gt (food budget / income budget) 0.4)
            warn_food warnings in
  let warnings :=
    push_if (Js.gt (income budget) 0
             && Js.gt (subscriptions budget / income budget) 0.3)
            warn_subscriptions warnings in
  let warnings := push_if (Js.lt (savings t) 0) warn_overspend warnings in
  let warnings := push_if (Js.gt (burnRate t) 1) warn_burnRate warnings in
  warnings.

(** ** The budget store (store/budgetStore.ts) *)

Inductive SyncStatus := LocalOnly | SyncPending | Synced.

#[global] Instance SyncStatus_eq_dec : EqDecision SyncStatus.
Proof. solve_decision. Defined.

(** [keyof BudgetFields]. *)
Inductive Field :=
  Income | MonthlyBills | Food | Transport | Subscriptions | Miscellaneous.

#[global] Instance Field_eq_dec : EqDecision Field.
Proof. solve_decision. Defined.

(** [budget[field]]. *)
Definition get_field (field : Field) (b : BudgetFields) : Js.number :=
  match field with
  | Income => income b
  | MonthlyBills => monthlyBills b
  | Food => food b
  | Transport => transport b
  | Subscriptions => subscriptions b
  | Miscellaneous => miscellaneous b
  end.

(** [{ ...budget, [field]: value }]. *)
Definition set_field (field : Field) (value : Js.number) (b : BudgetFields)
  : BudgetFields :=
  match field with
  | Income => mkBudget value (monthlyBills b) (food b) (transport b) (subscriptions b) (miscellaneous b)
  | MonthlyBills => mkBudget (income b) value (food b) (transport b) (subscriptions b) (miscellaneous b)
  | Food => mkBudget (income b) (monthlyBills b) value (transport b) (subscriptions b) (miscellaneous b)
  | Transport => mkBudget (income b) (monthlyBills b) (food b) value (subscriptions b) (miscellaneous b)
  | Subscriptions => mkBudget (income b) (monthlyBills b) (food b) (transport b) value (miscellaneous b)
  | Miscellaneous => mkBudget (income b) (monthlyBills b) (food b) (transport b) (subscriptions b) value
  end.

Module Snapshot.
Record BudgetSnapshot := mk {
  id : string;
  timestamp : string;
  budget : BudgetFields
}.
End Snapshot.
Export Snapshot(BudgetSnapshot).

(** The data members of [BudgetState]; the function members are the actions
    defined below. [authToken] is [string | null | undefined]: [None] stands
    for both absent values, which the program never tells apart. *)
Record BudgetState := mkState {
  budget : BudgetFields;
  syncStatus : SyncStatus;
  lastUpdatedAt : option string;
  lastSyncedAt : option string;
  userEmail : string;
  authToken : option string;
  history : list BudgetSnapshot
}.

Definition initialBudget : BudgetFields := mkBudget 0 0 0 0 0 0.

Definition initialState : BudgetState :=
  {| budget := initialBudget;
     syncStatus := LocalOnly;
     userEmail := "hire-me@anshumat.org";
     authToken := None;
     lastUpdatedAt := None;
     lastSyncedAt := None;
     history := [] |}.

(** Zustand's [set]: the object an action returns is merged over the current
    state, key by key ([Object.assign({}, state, partial)]); a key the object
    does not mention keeps its value. *)
Module Zustand.

Record Partial := mkPartial {
  p_budget : option BudgetFields;
  p_syncStatus : option SyncStatus;
  p_lastUpdatedAt : option string;
  p_lastSyncedAt : option string;
  p_userEmail : option string;
  p_authToken : option (option string);
  p_history : option (list BudgetSnapshot)
}.

(** [{}] *)
Definition empty : Partial := mkPartial None None None None None None None.

(** The state object itself, returned where a partial is expected: every
    key is present (a timestamp still [undefined] stays so). *)
Definition whole (s : BudgetState) : Partial :=
  {| p_budget := Some (budget s);
     p_syncStatus := Some (syncStatus s);
     p_lastUpdatedAt := lastUpdatedAt s;
     p_lastSyncedAt := lastSyncedAt s;
     p_userEmail := Some (userEmail s);
     p_authToken := Some (authToken s);
     p_history := Some (history s) |}.

Definition assign (s : BudgetState) (p : Partial) : BudgetState :=
  {| budget := Js.nullish (p_budget p) (budget s);
     syncStatus := Js.nullish (p_syncStatus p) (syncStatus s);
     lastUpdatedAt := Js.nullish_opt (p_lastUpdatedAt p) (lastUpdatedAt s);
     lastSyncedAt := Js.nullish_opt (p_lastSyncedAt p) (lastSyncedAt s);
     userEmail := Js.nullish (p_userEmail p) (userEmail s);
     authToken := Js.nullish (p_authToken p) (authToken s);
     history := Js.nullish (p_history p) (history s) |}.

(** [set((state) => partial)] *)
Definition set (f : BudgetState -> Partial) (s : BudgetState) : BudgetState :=
  assign s (f s).

End Zustand.
Import Zustand(Partial, mkPartial, p_budget, p_syncStatus, p_lastUpdatedAt,
               p_lastSyncedAt, p_userEmail, p_authToken, p_history).

(** The actions read the clock ([new Date().toISOString()]) and the random
    source ([crypto.randomUUID()]); both values are arguments here. *)

Definition updateField (field : Field) (value : Js.number) (now : string)
  : BudgetState -> BudgetState :=
  Zustand.set (fun state =>
    {| p_budget := Some (set_field field value (budget state));
       p_syncStatus :=
         Some (if decide (syncStatus state = Synced) then SyncPending
               else syncStatus state);
       p_lastUpdatedAt := Some now;
       p_lastSyncedAt := None; p_userEmail := None;
       p_authToken := None; p_history := None |}).

Definition setSyncStatus (status : SyncStatus) : BudgetState -> BudgetState :=
  Zustand.set (fun _ =>
    {| p_syncStatus := Some status;
       p_budget := None; p_lastUpdatedAt := None; p_lastSyncedAt := None;
       p_userEmail := None; p_authToken := None; p_history := None |}).

Definition markSynced (timestamp : string) : BudgetState -> BudgetState :=
  Zustand.set (fun _ =>
    {| p_syncStatus := Some Synced;
       p_lastSyncedAt := Some timestamp;
       p_budget := None; p_lastUpdatedAt := None;
       p_userEmail := None; p_authToken := None; p_history := None |}).

Definition hydrateFromServer (budget : BudgetFields) (syncedAt : option string)
  (now : string) : BudgetState -> BudgetState :=
  Zustand.set (fun _ =>
    {| p_budget := Some budget;
       p_syncStatus := Some Synced;
       p_lastSyncedAt := Some (Js.nullish syncedAt now);
       p_lastUpdatedAt := None;
       p_userEmail := None; p_authToken := None; p_history := None |}).

Definition setUserEmail (email : string) : BudgetState -> BudgetState :=
  Zustand.set (fun _ =>
    {| p_userEmail := Some email;
       p_budget := None; p_syncStatus := None; p_lastUpdatedAt := None;
       p_lastSyncedAt := None; p_authToken := None; p_history := None |}).

Definition setAuthToken (token : option string) : BudgetState -> BudgetState :=
  Zustand.set (fun _ =>
    {| p_authToken := Some token;
       p_budget := None; p_syncStatus := None; p_lastUpdatedAt := None;
       p_lastSyncedAt := None; p_userEmail := None; p_history := None |}).

(** [{ ...state.budget }]: a new object with the same six numbers. *)
Definition spread (b : BudgetFields) : BudgetFields :=
  mkBudget (income b) (monthlyBills b) (food b) (transport b)
           (subscriptions b) (miscellaneous b).

Definition addSnapshot (uuid now : string) : BudgetState -> BudgetState :=
  Zustand.set (fun state =>
    let snapshot := Snapshot.mk uuid now (spread (budget state)) in
    let nextHistory := take 20 (snapshot :: history state) in
    {| p_history := Some nextHistory;
       p_budget := None; p_syncStatus := None; p_lastUpdatedAt := None;
       p_lastSyncedAt := None; p_userEmail := None; p_authToken := None |}).

Definition restoreSnapshot (id : string) (now : string)
  : BudgetState -> BudgetState :=
  Zustand.set (fun state =>
    let snap := List.find (fun h => String.eqb (Snapshot.id h) id) (history state) in
    match snap with
    | None => Zustand.whole state
    | Some snap =>
        {| p_budget := Some (spread (Snapshot.budget snap));
           p_syncStatus := Some LocalOnly;
           p_lastUpdatedAt := Some now;
           p_lastSyncedAt := None; p_userEmail := None;
           p_authToken := None; p_history := None |}
    end).

(** ** HTTP exchange between the page and the backend *)

Module Http.

(** What the body of a request to [/budget/sync] carries, typed as the
    handler reads it: [{ budget?: Budget; email?: string }]. *)
Record SyncBody := mkSyncBody {
  body_budget : option BudgetFields;
  body_email : option string
}.

Record Request := mkRequest {
  authorization : option string;   (* req.headers.authorization *)
  body : SyncBody
}.

Inductive Json :=
| JError (error : string)                         (* { error } *)
| JSynced (success : bool) (timestamp : string)   (* { success, timestamp } *)
| JLatest (budget : option BudgetFields) (updatedAt : option string).

Record Response := mkResponse {
  status : nat;
  json : Json
}.

(** What [await fetch(...)] followed by [await res.json()] gives the page:
    the fetch rejects, or it resolves to a response whose [ok] flag is
    known and whose body either parses to an object of type [A] or makes
    the read throw (invalid JSON, or a value without properties). Every
    rejection carries the message of the [Error] thrown. *)
Inductive Parsed (A : Type) :=
| BodyThrows (message : string)
| BodyData (data : A).
Arguments BodyThrows {A} message.
Arguments BodyData {A} data.

Inductive Fetched (A : Type) :=
| Rejected (message : string)
| Resolved (ok : bool) (parsed : Parsed A).
Arguments Rejected {A} message.
Arguments Resolved {A} ok parsed.

End Http.

(** ** The sync coordinator (page component) *)

Module Home.

(** [data] as [syncToServer] reads it: only [data.timestamp]. *)
Record SyncData := mkSyncData { data_timestamp : option string }.

(** [data] as [fetchLatest] reads it: [data.budget] and [data.updatedAt]. *)
Record LatestData := mkLatestData {
  data_budget : option BudgetFields;
  data_updatedAt : option string
}.

(** The store together with the component's own [useState] cells. *)
Record Page := mkPage {
  store : BudgetState;
  message : option string;
  loadingSync : bool;
  loadingFetch : bool
}.

Definition on_store (f : BudgetState -> BudgetState) (p : Page) : Page :=
  mkPage (f (store p)) (message p) (loadingSync p) (loadingFetch p).
Definition setMessage (m : option string) (p : Page) : Page :=
  mkPage (store p) m (loadingSync p) (loadingFetch p).
Definition setLoadingSync (b : bool) (p : Page) : Page :=
  mkPage (store p) (message p) b (loadingFetch p).
Definition setLoadingFetch (b : bool) (p : Page) : Page :=
  mkPage (store p) (message p) (loadingSync p) b.

(** The request [syncToServer] sends; the token is attached when truthy. *)
Definition syncRequest (s : BudgetState) : Http.Request :=
  {| Http.authorization :=
       match authToken s with
       | Some t => if Js.truthy_string t then Some ("Bearer " ++ t)%string else None
       | None => None
       end;
     Http.body := Http.mkSyncBody (Some (budget s)) (Some (userEmail s)) |}.

(** [syncToServer], up to the first [await]. *)
Definition syncToServer_start (p : Page) : Page :=
  on_store (setSyncStatus SyncPending) (setMessage None (setLoadingSync true p)).

(** The [try] block after the fetch has settled: the state it leaves, or
    the message of the error it throws. *)
Definition syncToServer_try (r : Http.Fetched SyncData) (now : string) (p : Page)
  : Page + string :=
  match r with
  | Http.Rejected m => inr m
  | Http.Resolved false _ => inr "Sync failed"%string
  | Http.Resolved true (Http.BodyThrows m) => inr m
  | Http.Resolved true (Http.BodyData data) =>
      inl (setMessage (Some "Synced to server successfully."%string)
             (on_store (markSynced (Js.nullish (data_timestamp data) now)) p))
  end.

(** [try { ... } catch (err) { ... } finally { ... }] of [syncToServer]. *)
Definition syncToServer_settle (r : Http.Fetched SyncData) (now : string) (p : Page)
  : Page :=
  let p :=
    match syncToServer_try r now p with
    | inl p' => p'
    | inr m => on_store (setSyncStatus LocalOnly) (setMessage (Some m) p)
    end in
  setLoadingSync false p.

Definition syncToServer (r : Http.Fetched SyncData) (now : string) (p : Page) : Page :=
  syncToServer_settle r now (syncToServer_start p).

Definition fetchLatest_start (p : Page) : Page :=
  setMessage None (setLoadingFetch true p).

(** [fetchLatest] does not look at [res.ok]. *)
Definition fetchLatest_try (r : Http.Fetched LatestData) (now : string) (p : Page)
  : Page + string :=
  match r with
  | Http.Rejected m => inr m
  | Http.Resolved _ (Http.BodyThrows m) => inr m
  | Http.Resolved _ (Http.BodyData data) =>
      match data_budget data with
      | Some b =>
          inl (setMessage (Some "Pulled latest server version."%string)
                 (on_store (hydrateFromServer b (data_updatedAt data) now) p))
      | None =>
          inl (setMessage (Some "No server copy found — still local-first."%string) p)
      end
  end.

Definition fetchLatest_settle (r : Http.Fetched LatestData) (now : string) (p : Page)
  : Page :=
  let p :=
    match fetchLatest_try r now p with
    | inl p' => p'
    | inr m => setMessage (Some m) p
    end in
  setLoadingFetch false p.

Definition fetchLatest (r : Http.Fetched LatestData) (now : string) (p : Page) : Page :=
  fetchLatest_settle r now (fetchLatest_start p).

End Home.

(** ** The backend (backend/src/server.ts) *)

Module Server.

Record BudgetRecord := mkRecord {
  email : string;
  budget : BudgetFields;
  updatedAt : string
}.

(** The process state: the [BudgetStore] instance and the [tokenMap]. The
    store is taken in the configuration without [DATABASE_URL], where
    [save] and [latest] work on the [memory] map. *)
Record State := mkState {
  memory : gmap string BudgetRecord;
  tokenMap : gmap string string
}.

Definition save (record : BudgetRecord) (st : State) : State :=
  mkState (<[email record := record]> (memory st)) (tokenMap st).

Definition latest (email : string) (st : State) : option BudgetRecord :=
  memory st !! email.

(** [s.replace(pattern, replacement)] with a string pattern: the first
    occurrence only. *)
Fixpoint replace (pattern replacement s : string) : string :=
  if String.prefix pattern s
  then (replacement ++ String.substring (String.length pattern)
                         (String.length s - String.length pattern) s)%string
  else match s with
       | EmptyString => EmptyString
       | String c s' => String c (replace pattern replacement s')
       end.

(** Truthiness of [string | undefined]. *)
Definition truthy (o : option string) : bool :=
  match o with Some s => Js.truthy_string s | None => false end.

(** [tokenEmail !== resolvedEmail] on [string | undefined] values. *)
Definition differs (a b : option string) : bool := negb (bool_decide (a = b)).

(** [app.post("/budget/sync", ...)]; [now] is [new Date().toISOString()].
    [!resolvedEmail] holds when the email is [undefined] and when it is the
    empty string; [!budget] holds when the body has no budget. *)
Definition budget_sync (req : Http.Request) (now : string) (st : State)
  : State * Http.Response :=
  let budget := Http.body_budget (Http.body req) in
  let email := Http.body_email (Http.body req) in
  let authHeader := Js.nullish (Http.authorization req) EmptyString in
  let token := replace "Bearer " EmptyString authHeader in
  let tokenEmail := tokenMap st !! token in
  let resolvedEmail := Js.nullish_opt email tokenEmail in
  match resolvedEmail with
  | Some resolved =>
      if negb (Js.truthy_string resolved) then
        (st, Http.mkResponse 400 (Http.JError "Email is required"))
      else if negb (Nat.eqb (size (tokenMap st)) 0) && truthy tokenEmail
              && differs tokenEmail resolvedEmail then
        (st, Http.mkResponse 403 (Http.JError "Token does not match email"))
      else
        match budget with
        | None => (st, Http.mkResponse 400 (Http.JError "Budget payload missing"))
        | Some budget =>
            let updatedAt := now in
            (save (mkRecord resolved budget updatedAt) st,
             Http.mkResponse 200 (Http.JSynced true updatedAt))
        end
  | None => (st, Http.mkResponse 400 (Http.JError "Email is required"))
  end.

(** The values the handler derives from a request, under its names. *)
Definition token (req : Http.Request) : string :=
  replace "Bearer " EmptyString (Js.nullish (Http.authorization req) EmptyString).
Definition tokenEmail (req : Http.Request) (st : State) : option string :=
  tokenMap st !! token req.
Definition resolvedEmail (req : Http.Request) (st : State) : option string :=
  Js.nullish_opt (Http.body_email (Http.body req)) (tokenEmail req st).

(** The request names an email, the token presented is mapped to an email,
    neither is empty, and the two differ. *)
Definition mismatch (req : Http.Request) (st : State) : Prop :=
  exists e te,
    Http.body_email (Http.body req) = Some e /\ e <> EmptyString
    /\ tokenEmail req st = Some te /\ te <> EmptyString /\ te <> e.

(** [app.get("/budget/latest", ...)] for the [email] of the query string. *)
Definition budget_latest (email : string) (st : State) : Http.Response :=
  match latest email st with
  | None => Http.mkResponse 200 (Http.JLatest None None)
  | Some record =>
      Http.mkResponse 200 (Http.JLatest (Some (budget record)) (Some (updatedAt record)))
  end.

End Server.

(** ** Sample inputs *)

(** A budget with a negative income: the store accepts it. *)
Definition negative_income_budget : BudgetFields := mkBudget (-100) 0 50 0 0 0.

(** Income 10000 against expenses of 12000. *)
Definition overspent_budget : BudgetFields := mkBudget 10000 12000 0 0 0 0.

(** No income, and a large food spend. *)
Definition no_income_budget : BudgetFields := mkBudget 0 0 25000 0 0 0.

(** [addSnapshot] called once per element of [env], oldest call first; each
    element is the id and the timestamp that call draws. *)
Definition addSnapshots (env : list (string * string)) (s : BudgetState)
  : BudgetState :=
  fold_left (fun s e => addSnapshot e.1 e.2 s) env s.

(** The snapshot a call drawing [e] takes of the budget [b]. *)
Definition snapshot_of (b : BudgetFields) (e : string * string) : BudgetSnapshot :=
  Snapshot.mk e.1 e.2 b.

(** Twenty-five draws: ids ["a"], ["aa"], ... with timestamps ["t"], ["tt"], ... *)
Definition draws25 : list (string * string) :=
  (fun n => (String.concat EmptyString (repeat "a"%string (S n)),
             String.concat EmptyString (repeat "t"%string (S n)))) <$> seq 0 25.

(** A synced state holding one snapshot. *)
Definition synced_state : BudgetState :=
  addSnapshot "snap-1" "2025-01-01T00:00:00.000Z"
    (markSynced "2025-01-01T00:00:00.000Z"
       (updateField Income 50000 "2024-12-31T00:00:00.000Z" initialState)).

(** A server on which the demo account has logged in once. *)
Definition logged_in_server : Server.State :=
  Server.mkState ∅ {[ "dG9rZW4=" := "hire-me@anshumat.org" ]}%string.

(** A sync request that presents the token of that login and a budget, but
    no email. *)
Definition request_without_email : Http.Request :=
  Http.mkRequest (Some "Bearer dG9rZW4="%string)
                 (Http.mkSyncBody (Some overspent_budget) None).

(** A sync request that presents the token of that login together with
    another account's email, and no budget. *)
Definition request_without_budget : Http.Request :=
  Http.mkRequest (Some "Bearer dG9rZW4="%string)
                 (Http.mkSyncBody None (Some "someone@else.org"%string)).

(** ** The rest of the page component *)

Module View.

(** [CATEGORY_FIELDS]: the five expense fields with their labels. *)
Definition CATEGORY_FIELDS : list (Field * string) :=
  [ (MonthlyBills, "Monthly Bills"%string);
    (Food, "Food"%string);
    (Transport, "Transport"%string);
    (Subscriptions, "Subscriptions"%string);
    (Miscellaneous, "Miscellaneous"%string) ].

Definition COLORS : list string :=
  [ "#2563eb"; "#10b981"; "#f97316"; "#8b5cf6"; "#ef4444" ]%string.

Record ChartItem := mkItem {
  name : string;
  value : Js.number
}.

(** [CATEGORY_FIELDS.map(...).filter((item) => item.value > 0)] *)
Definition chartData (budget : BudgetFields) : list ChartItem :=
  List.filter (fun item => Js.gt (value item) 0)
    (List.map (fun field => mkItem field.2 (get_field field.1 budget))
       CATEGORY_FIELDS).

(** [COLORS[index % COLORS.length]]: [None] would be [undefined]. *)
Definition fill (index : nat) : option string :=
  COLORS !! (index mod length COLORS)%nat.

(** The colours given to the cells of the chart, [chartData.map((_, index) =>
    ...)]. *)
Definition fills (budget : BudgetFields) : list (option string) :=
  List.map fill (seq 0 (length (chartData budget))).

(** [onFieldChange(key)(event)]; [next] is [Number(event.target.value ?? 0)],
    the number the browser reads from the input. *)
Definition onFieldChange (key : Field) (next : Js.number) (now : string)
  : BudgetState -> BudgetState :=
  updateField key (if PrimFloat.is_nan next then 0 else next) now.

(** [data] as [login] reads it: only [data.token]. *)
Record LoginData := mkLoginData { data_token : option string }.

(** The page with the two cells that [login] uses. *)
Record Auth := mkAuth {
  page : Home.Page;
  password : string;
  authError : option string
}.

Definition on_page (f : Home.Page -> Home.Page) (a : Auth) : Auth :=
  mkAuth (f (page a)) (password a) (authError a).
Definition setAuthError (e : option string) (a : Auth) : Auth :=
  mkAuth (page a) (password a) e.

(** The body [login] posts: [{ email: userEmail, password }]. *)
Definition loginRequest (a : Auth) : string * string :=
  (userEmail (Home.store (page a)), password a).

(** [login], up to the first [await]. *)
Definition login_start (a : Auth) : Auth := setAuthError None a.

Definition login_try (r : Http.Fetched LoginData) (a : Auth) : Auth + string :=
  match r with
  | Http.Rejected m => inr m
  | Http.Resolved false _ => inr "Invalid demo credentials"%string
  | Http.Resolved true (Http.BodyThrows m) => inr m
  | Http.Resolved true (Http.BodyData data) =>
      inl (on_page
             (fun p =>
                Home.setMessage (Some "Authenticated with backend for sync."%string)
                  (Home.on_store (setAuthToken (data_token data)) p)) a)
  end.

Definition login_settle (r : Http.Fetched LoginData) (a : Auth) : Auth :=
  match login_try r a with
  | inl a' => a'
  | inr m => setAuthError (Some m) a
  end.

Definition login (r : Http.Fetched LoginData) (a : Auth) : Auth :=
  login_settle r (login_start a).

(** What can happen on the page, one step at a time: a request that is in
    flight settles in a later step, so that other steps may come between. *)
Inductive Event :=
| FieldChange (key : Field) (next : Js.number) (now : string)
| EmailTyped (email : string)
| PasswordTyped (password : string)
| LoginClicked
| LoginSettled (r : Http.Fetched LoginData)
| SyncClicked
| SyncSettled (r : Http.Fetched Home.SyncData) (now : string)
| FetchClicked
| FetchSettled (r : Http.Fetched Home.LatestData) (now : string)
| SnapshotSaved (uuid now : string)
| SnapshotRestored (id now : string).

Definition step (a : Auth) (e : Event) : Auth :=
  match e with
  | FieldChange key next now => on_page (Home.on_store (onFieldChange key next now)) a
  | EmailTyped email => on_page (Home.on_store (setUserEmail email)) a
  | PasswordTyped pw => mkAuth (page a) pw (authError a)
  | LoginClicked => login_start a
  | LoginSettled r => login_settle r a
  | SyncClicked => on_page Home.syncToServer_start a
  | SyncSettled r now => on_page (Home.syncToServer_settle r now) a
  | FetchClicked => on_page Home.fetchLatest_start a
  | FetchSettled r now => on_page (Home.fetchLatest_settle r now) a
  | SnapshotSaved uuid now =>
      on_page (fun p =>
                 Home.setMessage (Some "Snapshot saved locally."%string)
                   (Home.on_store (addSnapshot uuid now) p)) a
  | SnapshotRestored id now => on_page (Home.on_store (restoreSnapshot id now)) a
  end.

Definition run (events : list Event) (a : Auth) : Auth := fold_left step events a.

(** The page as it first renders. *)
Definition initial : Auth :=
  mkAuth (Home.mkPage initialState None false false) "HireMe@2025!" None.

End View.

(** ** The rest of the backend *)

Module Login.

(** [Buffer.from(s).toString("base64")]: the bytes of [s], three at a time,
    as four characters of the standard alphabet, padded with [=]. *)
Definition alphabet : string :=
  "ABCDEFGHIJKLMNOPQRSTUVWXYZabcdefghijklmnopqrstuvwxyz0123456789+/".

Definition digit (n : N) : Ascii.ascii :=
  match String.get (N.to_nat n) alphabet with
  | Some c => c
  | None => Ascii.ascii_of_nat 61   (* never reached below 64 *)
  end.

Fixpoint base64 (s : string) : string :=
  match s with
  | EmptyString => EmptyString
  | String a EmptyString =>
      let x := Ascii.N_of_ascii a in
      String (digit (x / 4)) (String (digit (x mod 4 * 16)) "==")
  | String a (String b EmptyString) =>
      let x := Ascii.N_of_ascii a in
      let y := Ascii.N_of_ascii b in
      String (digit (x / 4))
        (String (digit (x mod 4 * 16 + y / 16))
           (String (digit (y mod 16 * 4)) "="))
  | String a (String b (String c rest)) =>
      let x := Ascii.N_of_ascii a in
      let y := Ascii.N_of_ascii b in
      let z := Ascii.N_of_ascii c in
      String (digit (x / 4))
        (String (digit (x mod 4 * 16 + y / 16))
           (String (digit (y mod 16 * 4 + z / 64))
              (String (digit (z mod 64)) (base64 rest))))
  end%N.

(** The body of a request to [/auth/login]; a member that is absent, or is
    not a string, is [None]: it is equal to no credential. *)
Record Body := mkBody {
  body_email : option string;
  body_password : option string
}.

Inductive Json :=
| JError (error : string)                 (* { error } *)
| JToken (token : string) (email : string).   (* { token, email } *)

Record Response := mkResponse {
  status : nat;
  json : Json
}.

Section Configured.

(** [process.env.DEMO_EMAIL ?? ...] and [process.env.DEMO_PASSWORD ?? ...] *)
Variables DEMO_EMAIL DEMO_PASSWORD : string.

(** [app.post("/auth/login", ...)]; [now] is [Date.now()], in milliseconds. *)
Definition auth_login (body : Body) (now : N) (st : Server.State)
  : Server.State * Response :=
  match body_email body, body_password body with
  | Some email, Some password =>
      if String.eqb email DEMO_EMAIL && String.eqb password DEMO_PASSWORD then
        let token := base64 (email ++ ":" ++ pretty now)%string in
        (Server.mkState (Server.memory st) (<[token := email]> (Server.tokenMap st)),
         mkResponse 200 (JToken token email))
      else (st, mkResponse 401 (JError "Invalid credentials"))
  | _, _ => (st, mkResponse 401 (JError "Invalid credentials"))
  end.

(** The requests the process serves, one after the other. *)
Inductive Call :=
| PostLogin (body : Body) (now : N)
| PostSync (req : Http.Request) (now : string)
| GetLatest (email : string).

Definition serve (st : Server.State) (c : Call) : Server.State :=
  match c with
  | PostLogin body now => (auth_login body now st).1
  | PostSync req now => (Server.budget_sync req now st).1
  | GetLatest _ => st
  end.

Definition serve_all (calls : list Call) (st : Server.State) : Server.State :=
  fold_left serve calls st.

End Configured.

(** The process as it starts. *)
Definition started : Server.State := Server.mkState ∅ ∅.

(** The defaults of the two credentials. *)
Definition default_email : string := "hire-me@anshumat.org".
Definition default_password : string := "HireMe@2025!".

End Login.

(** ** More sample inputs *)

(** An income that is not a number, against a large food spend. *)
Definition nan_income_budget : BudgetFields := mkBudget (0 / 0) 0 25000 0 0 0.

(** [updateField] called once per element of [edits], first element first;
    each element is the field, the value and the time of that call. *)
Definition updateFields (edits : list (Field * Js.number * string))
  (s : BudgetState) : BudgetState :=
  fold_left (fun s e => updateField e.1.1 e.1.2 e.2 s) edits s.

(** Twenty draws, with ids ["a"], ["aa"], ... *)
Definition draws20 : list (string * string) := take 20 draws25.

(** What the steps of the page keep true of the store. *)
Definition page_ok (a : View.Auth) : Prop :=
  length (history (Home.store (View.page a))) <= 20
  /\ (syncStatus (Home.store (View.page a)) = Synced ->
      is_Some (lastSyncedAt (Home.store (View.page a)))).

(** ** The wire between the page and the backend

    What [fetch] and [res.json()] give the page when the answer of a handler
    arrives: [res.ok] holds for the statuses 200 to 299, and the data read
    are the members of the JSON object the handler sent. *)
Module Wire.

Definition ok (status : nat) : bool := Nat.leb 200 status && Nat.leb status 299.



Definition login_answer (resp : Login.Response) : Http.Fetched View.LoginData :=
  Http.Resolved (ok (Login.status resp))
    (Http.BodyData
       (View.mkLoginData
          match Login.json resp with
          | Login.JToken token _ => Some token
          | Login.JError _ => None
          end)).

(** [JSON.stringify({ email: userEmail, password })] as the handler reads it. *)
Definition login_body (credentials : string * string) : Login.Body :=
  Login.mkBody (Some credentials.1) (Some credentials.2).

End Wire.

(** The demo credentials in a login body. *)
Definition demo_login : Login.Body :=
  Login.mkBody (Some Login.default_email) (Some Login.default_password).

(** A sync request without [Authorization] header, for another account. *)
Definition anonymous_request : Http.Request :=
  Http.mkRequest None
    (Http.mkSyncBody (Some overspent_budget) (Some "someone@else.org"%string)).

(** What the calls served keep true of the token map, for the demo email
    [demo]: every token is mapped to that email, and no token is empty. *)
Definition tokens_ok (demo : string) (st : Server.State) : Prop :=
  forall k v, Server.tokenMap st !! k = Some v -> v = demo /\ k <> EmptyString.

(** What the calls served keep true of the saved records: each is saved
    under its own email, and that email is not empty. *)
Definition records_ok (st : Server.State) : Prop :=
  forall e r, Server.memory st !! e = Some r -> Server.email r = e /\ e <> EmptyString.

(** The space character, which ends the prefix ["Bearer "]. *)
Definition space : Ascii.ascii := Ascii.ascii_of_nat 32.

(** The characters of a string. *)
Fixpoint chars (s : string) : list Ascii.ascii :=
  match s with
  | EmptyString => []
  | String c s' => c :: chars s'
  end.

(** ** Facts on IEEE comparisons used by the guards *)

Section FloatFacts.

Lemma SFcompare_zero_gt (x : spec_float) :
  SFltb (S754_zero false) x = true ->
  SFeqb x (S754_zero false) = false /\ SFeqb x x = true.
Proof.
  destruct x as [s|s| |s m e]; try destruct s; cbn; try discriminate; auto.
  intros _. split; [reflexivity|].
  unfold SFeqb; cbn. rewrite Z.compare_refl, Pos.compare_refl. reflexivity.
Qed.

Lemma SFcompare_zero_eq (x : spec_float) :
  SFeqb x (S754_zero false) = true ->
  SFltb (S754_zero false) x = false /\ SFeqb x x = true.
Proof.
  destruct x as [s|s| |s m e]; try destruct s; cbn; try discriminate; auto.
Qed.

Lemma Prim2SF_zero : Prim2SF 0 = S754_zero false.
Proof. reflexivity. Qed.

(** A number strictly above zero is truthy. *)
Lemma truthy_of_pos (x : float) : Js.gt x 0 = true -> Js.truthy x = true.
Proof.
  unfold Js.gt, Js.truthy, PrimFloat.is_nan.
  rewrite FloatAxioms.ltb_spec, !FloatAxioms.eqb_spec, Prim2SF_zero.
  intros H. destruct (SFcompare_zero_gt _ H) as [-> ->]. reflexivity.
Qed.

(** A number equal to zero ([+0] or [-0]) is falsy and is not above zero. *)
Lemma falsy_of_zero (x : float) :
  PrimFloat.eqb x 0 = true -> Js.truthy x = false /\ Js.gt x 0 = false.
Proof.
  unfold Js.gt, Js.truthy. intros H. rewrite H. split; [reflexivity|].
  rewrite FloatAxioms.eqb_spec, Prim2SF_zero in H. rewrite FloatAxioms.ltb_spec, Prim2SF_zero.
  apply SFcompare_zero_eq in H. tauto.
Qed.

(** Every number is above zero, below zero, equal to zero, or NaN. *)
Lemma number_cases (x : float) :
  Js.gt x 0 = true \/ Js.lt x 0 = true
  \/ PrimFloat.eqb x 0 = true \/ PrimFloat.is_nan x = true.
Proof.
  unfold Js.gt, Js.lt, PrimFloat.is_nan.
  rewrite !FloatAxioms.ltb_spec, !FloatAxioms.eqb_spec, Prim2SF_zero.
  destruct (Prim2SF x) as [s|s| |s m e]; try destruct s; cbn; auto.
Qed.

(** A number strictly below zero is truthy. *)
Lemma truthy_of_neg (x : float) : Js.lt x 0 = true -> Js.truthy x = true.
Proof.
  unfold Js.lt, Js.truthy, PrimFloat.is_nan.
  rewrite FloatAxioms.ltb_spec, !FloatAxioms.eqb_spec, Prim2SF_zero.
  destruct (Prim2SF x) as [s|s| |s m e]; try destruct s; cbn;
    try discriminate; intros _; try reflexivity.
  unfold SFeqb; cbn. rewrite Z.compare_refl, Pos.compare_refl. reflexivity.
Qed.

Lemma falsy_of_nan (x : float) : PrimFloat.is_nan x = true -> Js.truthy x = false.
Proof. unfold Js.truthy. intros ->. rewrite orb_true_r. reflexivity. Qed.

End FloatFacts.


(** ** Derived metrics: burn rate *)

Section Totals.

(** C1, as stated, fails on the code: with income = -100 and food = 50 the
    income is not above zero (it is below or equal to zero), yet the burn
    rate returned is 50 / -100 = -0.5, which is not 0. *)
Lemma getTotals_burnRate_negative_income :
  Js.gt (income negative_income_budget) 0 = false
  /\ PrimFloat.leb (income negative_income_budget) 0 = true
  /\ burnRate (getTotals negative_income_budget) = -0.5
  /\ PrimFloat.eqb (burnRate (getTotals negative_income_budget)) 0 = false.
Proof. repeat split; reflexivity. Qed.

(** C1 (amended): for every budget, [expenses] is the sum of the five
    non-income fields, and [burnRate] is [expenses / income] whenever the
    income is non-zero (above zero, and also below zero), and 0 when the
    income is zero or NaN. *)
Theorem getTotals_burnRate (b : BudgetFields) :
  expenses (getTotals b)
    = monthlyBills b + food b + transport b + subscriptions b + miscellaneous b
  /\ (Js.gt (income b) 0 = true ->
      burnRate (getTotals b) = expenses (getTotals b) / income b)
  /\ (Js.lt (income b) 0 = true ->
      burnRate (getTotals b) = expenses (getTotals b) / income b)
  /\ (PrimFloat.eqb (income b) 0 = true -> burnRate (getTotals b) = 0)
  /\ (PrimFloat.is_nan (income b) = true -> burnRate (getTotals b) = 0).
Proof.
  unfold getTotals; cbn [expenses burnRate].
  split; [reflexivity|]. repeat split; intros H.
  - rewrite (truthy_of_pos _ H). reflexivity.
  - rewrite (truthy_of_neg _ H). reflexivity.
  - destruct (falsy_of_zero _ H) as [-> _]. reflexivity.
  - rewrite (falsy_of_nan _ H). reflexivity.
Qed.

Lemma getTotals_burnRate_witness :
  burnRate (getTotals overspent_budget) = 1.2
  /\ burnRate (getTotals negative_income_budget) = -0.5
  /\ burnRate (getTotals initialBudget) = 0.
Proof.
  split; [|split].
  - exact (proj1 (proj2 (getTotals_burnRate overspent_budget)) eq_refl).
  - exact (proj1 (proj2 (proj2 (getTotals_burnRate negative_income_budget))) eq_refl).
  - exact (proj1 (proj2 (proj2 (proj2 (getTotals_burnRate initialBudget)))) eq_refl).
Defined.

(** [savings] is [income - expenses], and the prediction is its alias. *)
Lemma getTotals_savings (b : BudgetFields) :
  savings (getTotals b) = income b - expenses (getTotals b)
  /\ monthEndPrediction (getTotals b) = savings (getTotals b).
Proof. split; reflexivity. Qed.

End Totals.

(** ** Anomaly warnings *)

Section Warnings.

Lemma warnings_distinct :
  NoDup [warn_food; warn_subscriptions; warn_overspend; warn_burnRate].
Proof. apply (bool_decide_unpack _). vm_compute. reflexivity. Qed.

Lemma In_push_if (c : bool) (msg w : string) (l : list string) :
  In w (push_if c msg l) <-> In w l \/ (c = true /\ w = msg).
Proof.
  unfold push_if. destruct c.
  - rewrite in_app_iff. cbn. intuition congruence.
  - intuition congruence.
Qed.

(** Membership in the list [getWarnings] returns, one warning at a time. *)
Lemma In_getWarnings (b : BudgetFields) (w : string) :
  In w (getWarnings b) <->
    (Js.gt (income b) 0 && Js.gt (food b / income b) 0.4 = true /\ w = warn_food)
    \/ (Js.gt (income b) 0 && Js.gt (subscriptions b / income b) 0.3 = true
        /\ w = warn_subscriptions)
    \/ (Js.lt (savings (getTotals b)) 0 = true /\ w = warn_overspend)
    \/ (Js.gt (burnRate (getTotals b)) 1 = true /\ w = warn_burnRate).
Proof.
  unfold getWarnings. cbv zeta. rewrite !In_push_if. cbn [In]. tauto.
Qed.

Lemma In_warn_overspend (b : BudgetFields) :
  In warn_overspend (getWarnings b) <-> Js.lt (savings (getTotals b)) 0 = true.
Proof.
  pose proof warnings_distinct as D.
  rewrite !NoDup_cons in D. cbn in D.
  rewrite In_getWarnings. split; [|auto].
  intros [[_ E]|[[_ E]|[[H _]|[_ E]]]]; auto;
    exfalso; rewrite E in D; set_solver.
Qed.

Lemma In_warn_burnRate (b : BudgetFields) :
  In warn_burnRate (getWarnings b) <-> Js.gt (burnRate (getTotals b)) 1 = true.
Proof.
  pose proof warnings_distinct as D.
  rewrite !NoDup_cons in D. cbn in D.
  rewrite In_getWarnings. split; [|auto 6].
  intros [[_ E]|[[_ E]|[[_ E]|[H _]]]]; auto;
    exfalso; rewrite E in D; set_solver.
Qed.

(** C8: the overspend warning is in the list exactly when [savings < 0],
    and the burn-rate warning exactly when [burnRate > 1]; neither
    condition mentions the food or subscription ratios, so each holds
    whether or not those two warnings are in the list. *)
Theorem getWarnings_overspend_burnRate (b : BudgetFields) :
  (In warn_overspend (getWarnings b) <-> Js.lt (savings (getTotals b)) 0 = true)
  /\ (In warn_burnRate (getWarnings b) <-> Js.gt (burnRate (getTotals b)) 1 = true).
Proof. split; [apply In_warn_overspend | apply In_warn_burnRate]. Qed.

(** C9: with an income equal to zero the food-ratio and subscription-ratio
    warnings are never in the list, whatever the food and subscription
    amounts, while the overspend and burn-rate tests still decide, on that
    input, whether their warnings are in the list. *)
Theorem getWarnings_zero_income (b : BudgetFields) :
  PrimFloat.eqb (income b) 0 = true ->
  ~ In warn_food (getWarnings b)
  /\ ~ In warn_subscriptions (getWarnings b)
  /\ (In warn_overspend (getWarnings b) <-> Js.lt (savings (getTotals b)) 0 = true)
  /\ (In warn_burnRate (getWarnings b) <-> Js.gt (burnRate (getTotals b)) 1 = true).
Proof.
  intros Hz. destruct (falsy_of_zero _ Hz) as [_ Hgt].
  pose proof warnings_distinct as D.
  rewrite !NoDup_cons in D. cbn in D.
  split; [|split; [|split; [apply In_warn_overspend | apply In_warn_burnRate]]];
    rewrite In_getWarnings, Hgt; cbn [andb];
    intros [[? _]|[[? _]|[[_ E]|[_ E]]]]; try discriminate;
    rewrite <- E in D; set_solver.
Qed.

Lemma getWarnings_zero_income_witness :
  ~ In warn_food (getWarnings no_income_budget)
  /\ ~ In warn_subscriptions (getWarnings no_income_budget)
  /\ (In warn_overspend (getWarnings no_income_budget)
      <-> Js.lt (savings (getTotals no_income_budget)) 0 = true)
  /\ (In warn_burnRate (getWarnings no_income_budget)
      <-> Js.gt (burnRate (getTotals no_income_budget)) 1 = true).
Proof. exact (getWarnings_zero_income no_income_budget eq_refl). Defined.

(** With an income equal to zero the burn rate is 0, so its test, though
    evaluated, never succeeds. *)
Lemma getWarnings_zero_income_burnRate (b : BudgetFields) :
  PrimFloat.eqb (income b) 0 = true -> ~ In warn_burnRate (getWarnings b).
Proof.
  intros Hz. destruct (falsy_of_zero _ Hz) as [Hf _].
  rewrite In_warn_burnRate.
  unfold getTotals; cbn [burnRate]. rewrite Hf. discriminate.
Qed.

(** The scenarios of the specification. *)
Example getWarnings_food_scenario :
  getWarnings (mkBudget 50000 0 25000 0 0 0) = [warn_food].
Proof. reflexivity. Qed.

Example getWarnings_overspend_scenario :
  getWarnings overspent_budget = [warn_overspend; warn_burnRate].
Proof. reflexivity. Qed.

Example getWarnings_no_income_scenario :
  getWarnings no_income_budget = [warn_overspend].
Proof. reflexivity. Qed.

End Warnings.

(** ** The budget store *)

Section Store.

Lemma spread_id (b : BudgetFields) : spread b = b.
Proof. destruct b; reflexivity. Qed.

Lemma assign_whole (s : BudgetState) : Zustand.assign s (Zustand.whole s) = s.
Proof. destruct s as [b st [u|] [y|] e a h]; reflexivity. Qed.

Lemma get_set_field_eq (f : Field) (v : Js.number) (b : BudgetFields) :
  get_field f (set_field f v b) = v.
Proof. destruct f; reflexivity. Qed.

Lemma get_set_field_ne (f g : Field) (v : Js.number) (b : BudgetFields) :
  g <> f -> get_field g (set_field f v b) = get_field g b.
Proof. destruct f, g; intros H; try reflexivity; contradict H; reflexivity. Qed.

(** C3: [updateField] turns [synced] into [sync-pending] and leaves
    [local-only] and [sync-pending] as they are; in every case the named
    budget field receives the value, the other five keep theirs, and
    [lastUpdatedAt] is the time of the call. *)
Theorem updateField_spec (field : Field) (value : Js.number) (now : string)
    (s : BudgetState) :
  (syncStatus s = Synced ->
   syncStatus (updateField field value now s) = SyncPending)
  /\ (syncStatus s = LocalOnly \/ syncStatus s = SyncPending ->
      syncStatus (updateField field value now s) = syncStatus s)
  /\ get_field field (budget (updateField field value now s)) = value
  /\ (forall g, g <> field ->
        get_field g (budget (updateField field value now s))
        = get_field g (budget s))
  /\ lastUpdatedAt (updateField field value now s) = Some now.
Proof.
  unfold updateField, Zustand.set, Zustand.assign; cbn.
  repeat split.
  - intros ->. reflexivity.
  - intros [H|H]; rewrite H; reflexivity.
  - apply get_set_field_eq.
  - intros g Hg. apply get_set_field_ne, Hg.
Qed.

Lemma updateField_spec_witness :
  syncStatus (updateField Food 25000 "2025-01-02T00:00:00.000Z" synced_state)
    = SyncPending
  /\ syncStatus (updateField Food 25000 "2025-01-02T00:00:00.000Z" initialState)
     = syncStatus initialState.
Proof.
  split.
  - exact (proj1 (updateField_spec Food 25000 "2025-01-02T00:00:00.000Z"
                    synced_state) eq_refl).
  - exact (proj1 (proj2 (updateField_spec Food 25000 "2025-01-02T00:00:00.000Z"
                           initialState)) (or_introl eq_refl)).
Defined.

(** [updateField] touches nothing but the budget, the status and
    [lastUpdatedAt]. *)
Lemma updateField_frame (field : Field) (value : Js.number) (now : string)
    (s : BudgetState) :
  lastSyncedAt (updateField field value now s) = lastSyncedAt s
  /\ userEmail (updateField field value now s) = userEmail s
  /\ authToken (updateField field value now s) = authToken s
  /\ history (updateField field value now s) = history s.
Proof. repeat split. Qed.

(** C10: [addSnapshot] changes the history only: budget, status, both
    timestamps, email and token are those of the starting state, so a
    synced state stays synced. *)
Theorem addSnapshot_frame (uuid now : string) (s : BudgetState) :
  budget (addSnapshot uuid now s) = budget s
  /\ syncStatus (addSnapshot uuid now s) = syncStatus s
  /\ lastUpdatedAt (addSnapshot uuid now s) = lastUpdatedAt s
  /\ lastSyncedAt (addSnapshot uuid now s) = lastSyncedAt s
  /\ userEmail (addSnapshot uuid now s) = userEmail s
  /\ authToken (addSnapshot uuid now s) = authToken s.
Proof. repeat split. Qed.

(** *** Snapshot history *)

Lemma addSnapshot_history (uuid now : string) (s : BudgetState) :
  history (addSnapshot uuid now s)
  = take 20 (snapshot_of (budget s) (uuid, now) :: history s).
Proof.
  unfold addSnapshot, Zustand.set, Zustand.assign, snapshot_of; cbn.
  rewrite spread_id. reflexivity.
Qed.

Lemma addSnapshots_budget (env : list (string * string)) (s : BudgetState) :
  budget (addSnapshots env s) = budget s.
Proof.
  unfold addSnapshots. revert s.
  induction env as [|e env IH]; intros s; [reflexivity|].
  cbn [fold_left]. rewrite IH. reflexivity.
Qed.

Lemma take_app_take {A} (n : nat) (l k : list A) :
  take n (l ++ take n k) = take n (l ++ k).
Proof.
  rewrite !take_app, take_take. do 2 f_equal. lia.
Qed.

(** After the calls of a non-empty [env] the history is the newest twenty
    of: the snapshots of those calls, newest first, followed by the old
    history. *)
Lemma addSnapshots_history (env : list (string * string)) (s : BudgetState) :
  env <> [] ->
  history (addSnapshots env s)
  = take 20 ((snapshot_of (budget s) <$> reverse env) ++ history s).
Proof.
  unfold addSnapshots. revert s.
  induction env as [|[uuid now] env IH]; intros s Hne; [congruence|].
  cbn [fold_left fst snd]. destruct env as [|e' env'].
  - cbn [fold_left]. apply addSnapshot_history.
  - rewrite IH by discriminate.
    change (budget (addSnapshot uuid now s)) with (budget s).
    rewrite addSnapshot_history, take_app_take.
    rewrite (reverse_cons _ (uuid, now)), fmap_app, <- app_assoc.
    reflexivity.
Qed.

Lemma addSnapshot_length (uuid now : string) (s : BudgetState) :
  length (history (addSnapshot uuid now s)) <= 20.
Proof. rewrite addSnapshot_history, length_take. lia. Qed.

Lemma addSnapshot_NoDup (uuid now : string) (s : BudgetState) :
  uuid ∉ Snapshot.id <$> history s ->
  NoDup (Snapshot.id <$> history s) ->
  NoDup (Snapshot.id <$> history (addSnapshot uuid now s)).
Proof.
  intros Hfresh Hnd. rewrite addSnapshot_history, fmap_take.
  eapply sublist_NoDup; [|apply sublist_take].
  cbn. apply NoDup_cons. split; assumption.
Qed.

(** C5: twenty-five calls of [addSnapshot], from any state, leave exactly
    twenty snapshots: those of the last twenty calls, newest first, the
    five oldest (and whatever the history held before) being evicted.
    Every single call puts at the head of the history a snapshot made of
    the id drawn, the time of the call and the budget of that moment, and
    keeps the first twenty entries; an id that is new among unique ids
    leaves them unique; the stored budget is a copy, untouched by later
    edits of the current budget. *)
Theorem addSnapshot_25 (s : BudgetState) (env : list (string * string)) :
  length env = 25%nat ->
  history (addSnapshots env s)
    = snapshot_of (budget s) <$> reverse (drop 5 env)
  /\ length (history (addSnapshots env s)) = 20%nat
  /\ (forall uuid now s0,
        history (addSnapshot uuid now s0)
          = take 20 (Snapshot.mk uuid now (budget s0) :: history s0)
        /\ length (history (addSnapshot uuid now s0)) <= 20
        /\ (uuid ∉ Snapshot.id <$> history s0 ->
            NoDup (Snapshot.id <$> history s0) ->
            NoDup (Snapshot.id <$> history (addSnapshot uuid now s0)))
        /\ (forall field value later,
              history (updateField field value later (addSnapshot uuid now s0))
              = history (addSnapshot uuid now s0))).
Proof.
  intros Hlen.
  assert (history (addSnapshots env s)
          = snapshot_of (budget s) <$> reverse (drop 5 env)) as Hh.
  { rewrite addSnapshots_history by (intros ->; discriminate).
    rewrite take_app_le by (rewrite length_fmap, length_reverse; lia).
    rewrite <- fmap_take, take_reverse, Hlen. reflexivity. }
  split; [exact Hh|]. split.
  - rewrite Hh, length_fmap, length_reverse, length_drop. lia.
  - intros uuid now s0. split; [apply addSnapshot_history|].
    split; [apply addSnapshot_length|].
    split; [apply addSnapshot_NoDup|]. reflexivity.
Qed.

Lemma addSnapshot_25_witness :
  length (history (addSnapshots draws25 initialState)) = 20%nat
  /\ history (addSnapshots draws25 initialState)
     = snapshot_of initialBudget <$> reverse (drop 5 draws25).
Proof.
  pose (H := addSnapshot_25 initialState draws25 eq_refl).
  exact (conj (proj1 (proj2 H)) (proj1 H)).
Defined.

(** The bound of twenty is kept by every action of the store. *)
Lemma history_bound_preserved (s : BudgetState) :
  length (history s) <= 20 ->
  (forall f v t, length (history (updateField f v t s)) <= 20)
  /\ (forall st, length (history (setSyncStatus st s)) <= 20)
  /\ (forall t, length (history (markSynced t s)) <= 20)
  /\ (forall b a t, length (history (hydrateFromServer b a t s)) <= 20)
  /\ (forall e, length (history (setUserEmail e s)) <= 20)
  /\ (forall k, length (history (setAuthToken k s)) <= 20)
  /\ (forall u t, length (history (addSnapshot u t s)) <= 20)
  /\ (forall i t, length (history (restoreSnapshot i t s)) <= 20).
Proof.
  intros H. repeat split; intros; try exact H.
  - apply addSnapshot_length.
  - unfold restoreSnapshot, Zustand.set.
    destruct (find _ _); [exact H|]. rewrite assign_whole. exact H.
Qed.

(** *** Restoring a snapshot *)

Lemma find_id_None (i : string) (h : list BudgetSnapshot) :
  i ∉ Snapshot.id <$> h ->
  List.find (fun x => String.eqb (Snapshot.id x) i) h = None.
Proof.
  intros Hn. destruct (List.find _ h) as [x|] eqn:E; [|reflexivity].
  apply find_some in E as [Hin Heq]. apply String.eqb_eq in Heq.
  exfalso. apply Hn. rewrite <- Heq.
  apply list_elem_of_fmap_2, list_elem_of_In, Hin.
Qed.

Lemma find_id_Some (i : string) (h : list BudgetSnapshot) :
  i ∈ Snapshot.id <$> h ->
  exists snap, List.find (fun x => String.eqb (Snapshot.id x) i) h = Some snap
               /\ snap ∈ h /\ Snapshot.id snap = i.
Proof.
  intros Hin. destruct (List.find _ h) as [x|] eqn:E.
  - exists x. apply find_some in E as [Hx Heq]. apply String.eqb_eq in Heq.
    split; [reflexivity|]. split; [apply list_elem_of_In, Hx | exact Heq].
  - exfalso. apply list_elem_of_fmap in Hin as (y & -> & Hy).
    apply list_elem_of_In in Hy.
    pose proof (find_none _ _ E _ Hy) as Hf. cbn in Hf.
    rewrite String.eqb_refl in Hf. discriminate.
Qed.

(** C6: [restoreSnapshot] with an id that no snapshot of the history
    carries returns the state it was given; with an id that one carries,
    the budget becomes the copy stored in that snapshot (the first one
    with the id), the status becomes [local-only], [lastUpdatedAt] is the
    time of the call, and the rest of the state is kept. *)
Theorem restoreSnapshot_spec (id now : string) (s : BudgetState) :
  (id ∉ Snapshot.id <$> history s -> restoreSnapshot id now s = s)
  /\ (id ∈ Snapshot.id <$> history s ->
      exists snap,
        List.find (fun h => String.eqb (Snapshot.id h) id) (history s) = Some snap
        /\ snap ∈ history s
        /\ Snapshot.id snap = id
        /\ budget (restoreSnapshot id now s) = Snapshot.budget snap
        /\ syncStatus (restoreSnapshot id now s) = LocalOnly
        /\ lastUpdatedAt (restoreSnapshot id now s) = Some now
        /\ lastSyncedAt (restoreSnapshot id now s) = lastSyncedAt s
        /\ userEmail (restoreSnapshot id now s) = userEmail s
        /\ authToken (restoreSnapshot id now s) = authToken s
        /\ history (restoreSnapshot id now s) = history s).
Proof.
  split; intros H.
  - unfold restoreSnapshot, Zustand.set. rewrite (find_id_None _ _ H).
    apply assign_whole.
  - destruct (find_id_Some _ _ H) as (snap & Hf & Hin & Hid).
    exists snap. unfold restoreSnapshot, Zustand.set. rewrite Hf.
    cbn. rewrite spread_id. repeat split; assumption.
Qed.

Lemma restoreSnapshot_spec_witness :
  restoreSnapshot "snap-0" "2025-01-03T00:00:00.000Z" synced_state = synced_state
  /\ exists snap,
       List.find (fun h => String.eqb (Snapshot.id h) "snap-1") (history synced_state)
         = Some snap
       /\ snap ∈ history synced_state
       /\ Snapshot.id snap = "snap-1"%string
       /\ budget (restoreSnapshot "snap-1" "2025-01-03T00:00:00.000Z" synced_state)
          = Snapshot.budget snap
       /\ syncStatus (restoreSnapshot "snap-1" "2025-01-03T00:00:00.000Z" synced_state)
          = LocalOnly
       /\ lastUpdatedAt (restoreSnapshot "snap-1" "2025-01-03T00:00:00.000Z" synced_state)
          = Some "2025-01-03T00:00:00.000Z"%string
       /\ lastSyncedAt (restoreSnapshot "snap-1" "2025-01-03T00:00:00.000Z" synced_state)
          = lastSyncedAt synced_state
       /\ userEmail (restoreSnapshot "snap-1" "2025-01-03T00:00:00.000Z" synced_state)
          = userEmail synced_state
       /\ authToken (restoreSnapshot "snap-1" "2025-01-03T00:00:00.000Z" synced_state)
          = authToken synced_state
       /\ history (restoreSnapshot "snap-1" "2025-01-03T00:00:00.000Z" synced_state)
          = history synced_state.
Proof.
  split.
  - apply (proj1 (restoreSnapshot_spec "snap-0" "2025-01-03T00:00:00.000Z" synced_state)).
    vm_compute. intros H. apply list_elem_of_In in H. cbn in H.
    destruct H as [H|[]]. discriminate H.
  - apply (proj2 (restoreSnapshot_spec "snap-1" "2025-01-03T00:00:00.000Z" synced_state)).
    apply list_elem_of_In. left. reflexivity.
Defined.

End Store.

(** ** The sync coordinator *)

Section Coordinator.
Import Home.

(** Whatever the state when the fetch settles, a settled [syncToServer]
    leaves [synced] after a 2xx answer whose body could be read, and
    [local-only] in every other case. *)
Lemma syncToServer_settle_status (r : Http.Fetched SyncData) (now : string)
    (p : Page) :
  syncStatus (store (syncToServer_settle r now p))
  = match syncToServer_try r now p with inl _ => Synced | inr _ => LocalOnly end.
Proof. destruct r as [m|[|] [m|data]]; reflexivity. Qed.

(** C4: [syncToServer] first sets the status to [sync-pending]; when the
    fetch rejects, when the answer is not 2xx, or when its body cannot be
    read, the status ends at [local-only]; when a 2xx answer is read,
    [markSynced] leaves [synced] with the timestamp of the answer, or the
    local time when the answer has none. The status never ends at
    [sync-pending]. *)
Theorem syncToServer_spec (now : string) (p : Page) :
  syncStatus (store (syncToServer_start p)) = SyncPending
  /\ (forall m,
        syncStatus (store (syncToServer (Http.Rejected m) now p)) = LocalOnly)
  /\ (forall parsed,
        syncStatus (store (syncToServer (Http.Resolved false parsed) now p))
        = LocalOnly)
  /\ (forall m,
        syncStatus (store (syncToServer (Http.Resolved true (Http.BodyThrows m)) now p))
        = LocalOnly)
  /\ (forall data,
        store (syncToServer (Http.Resolved true (Http.BodyData data)) now p)
        = markSynced (Js.nullish (data_timestamp data) now)
            (setSyncStatus SyncPending (store p))
        /\ syncStatus (store (syncToServer (Http.Resolved true (Http.BodyData data)) now p))
           = Synced
        /\ lastSyncedAt (store (syncToServer (Http.Resolved true (Http.BodyData data)) now p))
           = Some (Js.nullish (data_timestamp data) now))
  /\ (forall r, syncStatus (store (syncToServer r now p)) <> SyncPending).
Proof.
  split; [reflexivity|].
  split; [reflexivity|].
  split; [intros [m|d]; reflexivity|].
  split; [reflexivity|].
  split; [intros data; repeat split|].
  intros r. unfold syncToServer. rewrite syncToServer_settle_status.
  destruct (syncToServer_try _ _ _); discriminate.
Qed.

(** A sync, failed or not, keeps the budget, the history and the identity. *)
Lemma syncToServer_frame (r : Http.Fetched SyncData) (now : string) (p : Page) :
  budget (store (syncToServer r now p)) = budget (store p)
  /\ history (store (syncToServer r now p)) = history (store p)
  /\ userEmail (store (syncToServer r now p)) = userEmail (store p)
  /\ authToken (store (syncToServer r now p)) = authToken (store p)
  /\ lastUpdatedAt (store (syncToServer r now p)) = lastUpdatedAt (store p)
  /\ loadingSync (syncToServer r now p) = false.
Proof. destruct r as [m|[|] [m|data]]; repeat split. Qed.

(** C7: when the answer carries no budget, [fetchLatest] leaves the store
    as it was and the message says that no server copy was found; when it
    carries one, [hydrateFromServer] replaces the whole budget by it and
    sets the status to [synced]; when the fetch rejects or the body cannot
    be read, the store is as it was. *)
Theorem fetchLatest_spec (now : string) (p : Page) :
  (forall ok updatedAt,
      store (fetchLatest (Http.Resolved ok (Http.BodyData (mkLatestData None updatedAt)))
                         now p) = store p
      /\ message (fetchLatest (Http.Resolved ok
                    (Http.BodyData (mkLatestData None updatedAt))) now p)
         = Some "No server copy found — still local-first."%string)
  /\ (forall ok b updatedAt,
        store (fetchLatest (Http.Resolved ok
                 (Http.BodyData (mkLatestData (Some b) updatedAt))) now p)
        = hydrateFromServer b updatedAt now (store p)
        /\ budget (store (fetchLatest (Http.Resolved ok
                     (Http.BodyData (mkLatestData (Some b) updatedAt))) now p)) = b
        /\ syncStatus (store (fetchLatest (Http.Resolved ok
                         (Http.BodyData (mkLatestData (Some b) updatedAt))) now p))
           = Synced)
  /\ (forall m, store (fetchLatest (Http.Rejected m) now p) = store p)
  /\ (forall ok m,
        store (fetchLatest (Http.Resolved ok (Http.BodyThrows m)) now p) = store p).
Proof. repeat split. Qed.

End Coordinator.

(** ** The backend *)

Section Backend.
Import Server.

Lemma truthy_string_iff (s : string) : Js.truthy_string s = true <-> s <> EmptyString.
Proof. destruct s; cbn; split; congruence. Qed.

Lemma tokenMap_size (st : State) (k v : string) :
  tokenMap st !! k = Some v -> Nat.eqb (size (tokenMap st)) 0 = false.
Proof.
  intros H. apply Nat.eqb_neq, map_size_non_empty_iff.
  intros E. rewrite E, lookup_empty in H. discriminate.
Qed.

(** The test guarding the 403 answer, once an email has been resolved. *)
Lemma mismatch_test (req : Http.Request) (st : State) (r : string) :
  resolvedEmail req st = Some r -> r <> EmptyString ->
  negb (Nat.eqb (size (tokenMap st)) 0) && truthy (tokenEmail req st)
    && differs (tokenEmail req st) (resolvedEmail req st) = true
  <-> mismatch req st.
Proof.
  unfold resolvedEmail, mismatch, differs, tokenEmail.
  intros Hr Hne.
  destruct (Http.body_email (Http.body req)) as [e|] eqn:He; cbn in Hr.
  - injection Hr as ->.
    destruct (tokenMap st !! token req) as [te|] eqn:Ht; cbn.
    + rewrite (tokenMap_size _ _ _ Ht). cbn.
      rewrite andb_true_iff, negb_true_iff, bool_decide_eq_false, truthy_string_iff.
      split.
      * intros [H1 H2]. exists r, te. repeat split; congruence.
      * intros (e & te' & E1 & E2 & E3 & E4 & E5).
        injection E1 as <-. injection E3 as <-. split; congruence.
    + rewrite andb_false_r. split; [discriminate|].
      intros (e & te' & _ & _ & E3 & _). discriminate.
  - rewrite Hr. cbn. rewrite bool_decide_eq_true_2 by reflexivity.
    cbn. rewrite andb_false_r. split; [discriminate|].
    intros (e & te' & E1 & _). discriminate.
Qed.

(** C2, as stated, fails on the code. A request whose body has no email but
    whose token is mapped to one is answered 200, not 400: the handler
    falls back on the email of the token. A request whose body has no
    budget and whose email differs from the one of the token is answered
    403, not 400: the token is checked before the budget. *)
Lemma budget_sync_email_fallback :
  Http.body_email (Http.body request_without_email) = None
  /\ Http.status (budget_sync request_without_email "2025-01-01T00:00:00.000Z"
                    logged_in_server).2 = 200%nat
  /\ Http.body_budget (Http.body request_without_budget) = None
  /\ Http.status (budget_sync request_without_budget "2025-01-01T00:00:00.000Z"
                    logged_in_server).2 = 403%nat.
Proof. repeat split; vm_compute; reflexivity. Qed.

(** C2 (amended): the email of a request is the one of its body or, when
    the body has none, the one the token is mapped to. The handler answers
    403 exactly when the body names a non-empty email and the token is
    mapped to a different non-empty email; 400 exactly when no non-empty
    email results, or when the answer is not 403 and the budget is
    missing; and 200 in every other case, with [{ success: true,
    timestamp }] and the record saved under the resolved email. An answer
    other than 200 leaves the store as it was. *)
Theorem budget_sync_spec (req : Http.Request) (now : string) (st : State) :
  (Http.status (budget_sync req now st).2 = 403%nat <-> mismatch req st)
  /\ (Http.status (budget_sync req now st).2 = 400%nat <->
        truthy (resolvedEmail req st) = false
        \/ (~ mismatch req st /\ Http.body_budget (Http.body req) = None))
  /\ (Http.status (budget_sync req now st).2 = 200%nat <->
        truthy (resolvedEmail req st) = true
        /\ ~ mismatch req st
        /\ Http.body_budget (Http.body req) <> None)
  /\ (forall e b,
        resolvedEmail req st = Some e ->
        Http.body_budget (Http.body req) = Some b ->
        Http.status (budget_sync req now st).2 = 200%nat ->
        budget_sync req now st
        = (save (mkRecord e b now) st, Http.mkResponse 200 (Http.JSynced true now)))
  /\ (Http.status (budget_sync req now st).2 <> 200%nat ->
        (budget_sync req now st).1 = st).
Proof.
  assert (forall r, resolvedEmail req st = Some r -> ~ r <> EmptyString -> ~ mismatch req st)
    as Hempty.
  { intros r Hr Hn (e & te & E1 & E2 & _). apply Hn.
    unfold resolvedEmail in Hr. rewrite E1 in Hr. cbn in Hr. congruence. }
  assert (resolvedEmail req st = None -> ~ mismatch req st) as Hnone.
  { intros Hr (e & te & E1 & _).
    unfold resolvedEmail in Hr. rewrite E1 in Hr. discriminate. }
  pose proof (mismatch_test req st) as Htest.
  unfold budget_sync. cbv zeta.
  fold (token req). fold (tokenEmail req st). fold (resolvedEmail req st).
  destruct (resolvedEmail req st) as [r|] eqn:Hr.
  - destruct (Js.truthy_string r) eqn:Hb; cbn [negb truthy].
    + rewrite Hb.
      assert (r <> EmptyString) as Hne by (apply truthy_string_iff, Hb).
      specialize (Htest r eq_refl Hne).
      destruct (negb (Nat.eqb (size (tokenMap st)) 0) && truthy (tokenEmail req st)
                && differs (tokenEmail req st) (Some r)) eqn:Hc.
      * assert (mismatch req st) as Hm by (apply Htest; reflexivity).
        cbn. repeat split; try tauto; try discriminate; intuition discriminate.
      * assert (~ mismatch req st) as Hm
            by (intros Hm; apply Htest in Hm; discriminate).
        destruct (Http.body_budget (Http.body req)) as [b|]; cbn;
          repeat split; try tauto; try discriminate; try congruence;
          intuition (try discriminate; try congruence).
    + rewrite Hb.
      assert (~ mismatch req st) as Hm.
      { apply (Hempty r eq_refl). intros Hne.
        apply truthy_string_iff in Hne. congruence. }
      cbn. repeat split; try tauto; try discriminate;
        intuition (try discriminate; try congruence).
  - specialize (Hnone eq_refl). cbn.
    repeat split; try tauto; try discriminate;
      intuition (try discriminate; try congruence).
Qed.

Lemma budget_sync_spec_witness :
  budget_sync request_without_email "2025-01-01T00:00:00.000Z" logged_in_server
  = (save (mkRecord "hire-me@anshumat.org" overspent_budget "2025-01-01T00:00:00.000Z")
          logged_in_server,
     Http.mkResponse 200 (Http.JSynced true "2025-01-01T00:00:00.000Z")).
Proof.
  apply (proj1 (proj2 (proj2 (proj2
           (budget_sync_spec request_without_email "2025-01-01T00:00:00.000Z"
                             logged_in_server))))).
  - vm_compute. reflexivity.
  - reflexivity.
  - vm_compute. reflexivity.
Defined.

(** [/budget/latest] answers a null budget exactly when the store has no
    record for the email. *)
Lemma budget_latest_spec (email : string) (st : State) :
  (latest email st = None ->
   budget_latest email st = Http.mkResponse 200 (Http.JLatest None None))
  /\ (forall record, latest email st = Some record ->
        budget_latest email st
        = Http.mkResponse 200 (Http.JLatest (Some (budget record))
                                            (Some (updatedAt record)))).
Proof. unfold budget_latest. split; [intros ->|intros record ->]; reflexivity. Qed.


End Backend.

(** ** From the page to the backend *)

(** The request [syncToServer] builds always carries a budget and the
    email of the store: the handler can refuse it for an empty email or a
    token of another account, never for a missing budget. *)
Lemma budget_sync_of_page (s : BudgetState) (now : string) (st : Server.State) :
  userEmail s <> EmptyString ->
  ~ Server.mismatch (Home.syncRequest s) st ->
  Server.budget_sync (Home.syncRequest s) now st
  = (Server.save (Server.mkRecord (userEmail s) (budget s) now) st,
     Http.mkResponse 200 (Http.JSynced true now)).
Proof.
  intros Hne Hm.
  pose proof (mismatch_test (Home.syncRequest s) st (userEmail s) eq_refl Hne) as Ht.
  unfold Server.budget_sync. cbv zeta.
  fold (Server.token (Home.syncRequest s)). fold (Server.tokenEmail (Home.syncRequest s) st).
  fold (Server.resolvedEmail (Home.syncRequest s) st).
  change (Server.resolvedEmail (Home.syncRequest s) st) with (Some (userEmail s)) in *.
  cbv beta iota. rewrite (proj2 (truthy_string_iff _) Hne). cbn [negb].
  destruct (negb (Nat.eqb (size (Server.tokenMap st)) 0)
            && Server.truthy (Server.tokenEmail (Home.syncRequest s) st)
            && Server.differs (Server.tokenEmail (Home.syncRequest s) st) (Some (userEmail s))).
  - exfalso. apply Hm, Ht. reflexivity.
  - reflexivity.
Qed.

(** ** More on the anomaly warnings *)

Section MoreWarnings.

Lemma Prim2SF_nan (x : float) : PrimFloat.is_nan x = true -> Prim2SF x = S754_nan.
Proof.
  unfold PrimFloat.is_nan. rewrite FloatAxioms.eqb_spec.
  destruct (Prim2SF x) as [s|s| |s m e]; try destruct s; cbn;
    try discriminate; try reflexivity;
    unfold SFeqb; cbn; rewrite Z.compare_refl, Pos.compare_refl; discriminate.
Qed.

(** A difference whose first operand is NaN is below nothing. *)
Lemma nan_sub_not_lt (x y z : float) :
  PrimFloat.is_nan x = true -> Js.lt (x - y) z = false.
Proof.
  intros H. unfold Js.lt.
  rewrite FloatAxioms.ltb_spec, FloatAxioms.sub_spec, (Prim2SF_nan _ H).
  reflexivity.
Qed.

Lemma nan_not_gt (x y : float) : PrimFloat.is_nan x = true -> Js.gt x y = false.
Proof.
  intros H. unfold Js.gt. rewrite FloatAxioms.ltb_spec, (Prim2SF_nan _ H).
  unfold SFltb. destruct (Prim2SF y) as [s|s| |s m e]; try destruct s; reflexivity.
Qed.

(** X1: the food warning is in the list exactly when the income is above
    zero and food / income is above 0.4; the subscriptions warning exactly
    when the income is above zero and subscriptions / income is above 0.3. *)
Theorem getWarnings_ratio_warnings (b : BudgetFields) :
  (In warn_food (getWarnings b) <->
     Js.gt (income b) 0 = true /\ Js.gt (food b / income b) 0.4 = true)
  /\ (In warn_subscriptions (getWarnings b) <->
        Js.gt (income b) 0 = true /\ Js.gt (subscriptions b / income b) 0.3 = true).
Proof.
  pose proof warnings_distinct as D.
  rewrite !NoDup_cons in D. cbn in D.
  rewrite !In_getWarnings, !andb_true_iff. split; split.
  - intros [[H _]|[[_ E]|[[_ E]|[_ E]]]]; auto;
      exfalso; rewrite <- E in D; set_solver.
  - auto.
  - intros [[_ E]|[[H _]|[[_ E]|[_ E]]]]; auto;
      exfalso; try rewrite <- E in D; try rewrite E in D; set_solver.
  - auto.
Qed.

(** X2: the warnings come in one fixed order (food, subscriptions,
    overspend, burn rate), each at most once: the list is a sublist of
    those four, so it has no duplicate and at most four entries. *)
Theorem getWarnings_ordered (b : BudgetFields) :
  getWarnings b `sublist_of`
    [warn_food; warn_subscriptions; warn_overspend; warn_burnRate]
  /\ NoDup (getWarnings b)
  /\ length (getWarnings b) <= 4.
Proof.
  assert (getWarnings b `sublist_of`
            [warn_food; warn_subscriptions; warn_overspend; warn_burnRate]) as S.
  { unfold getWarnings, push_if. cbv zeta.
    destruct (Js.gt (income b) 0 && Js.gt (food b / income b) 0.4),
             (Js.gt (income b) 0 && Js.gt (subscriptions b / income b) 0.3),
             (Js.lt (savings (getTotals b)) 0),
             (Js.gt (burnRate (getTotals b)) 1); cbn [app];
      repeat first [ apply sublist_nil | apply sublist_skip | apply sublist_cons ]. }
  split; [exact S|]. split.
  - eapply sublist_NoDup; [apply warnings_distinct | exact S].
  - apply sublist_length in S. exact S.
Qed.

(** X3: with an income equal to zero the list is the overspend warning alone
    when the savings are below zero, and empty otherwise: the burn rate is 0
    there, so its warning cannot be given. *)
Theorem getWarnings_zero_income_list (b : BudgetFields) :
  PrimFloat.eqb (income b) 0 = true ->
  getWarnings b
  = if Js.lt (savings (getTotals b)) 0 then [warn_overspend] else [].
Proof.
  intros Hz. destruct (falsy_of_zero _ Hz) as [Hf Hgt].
  unfold getWarnings, getTotals. cbv zeta. cbn [savings burnRate].
  rewrite Hgt, Hf. cbn [andb push_if].
  change (Js.gt 0 1) with false. cbn [push_if].
  destruct (Js.lt _ 0); reflexivity.
Qed.

Lemma getWarnings_zero_income_list_witness :
  getWarnings no_income_budget = [warn_overspend].
Proof. exact (getWarnings_zero_income_list no_income_budget eq_refl). Defined.

(** X4: with an income that is NaN the burn rate is 0 and no warning at all
    is given, whatever the five expense fields hold. *)
Theorem getWarnings_nan_income (b : BudgetFields) :
  PrimFloat.is_nan (income b) = true ->
  burnRate (getTotals b) = 0 /\ getWarnings b = [].
Proof.
  intros Hn.
  assert (burnRate (getTotals b) = 0) as Hb.
  { unfold getTotals. cbn [burnRate]. rewrite (falsy_of_nan _ Hn). reflexivity. }
  split; [exact Hb|].
  unfold getWarnings. cbv zeta. rewrite Hb.
  rewrite (nan_not_gt _ 0 Hn). cbn [andb push_if].
  unfold getTotals. cbn [savings]. rewrite (nan_sub_not_lt _ _ 0 Hn).
  reflexivity.
Qed.

Lemma getWarnings_nan_income_witness :
  burnRate (getTotals nan_income_budget) = 0 /\ getWarnings nan_income_budget = [].
Proof. exact (getWarnings_nan_income nan_income_budget eq_refl). Defined.

End MoreWarnings.

(** ** More on the budget store *)

Section MoreStore.

(** X5: after [updateField] the status is never [synced]: it is
    [local-only] or [sync-pending], and a further [updateField] keeps it. *)
Theorem updateField_status (field field' : Field) (value value' : Js.number)
    (now now' : string) (s : BudgetState) :
  (syncStatus (updateField field value now s) = LocalOnly
   \/ syncStatus (updateField field value now s) = SyncPending)
  /\ syncStatus (updateField field' value' now' (updateField field value now s))
     = syncStatus (updateField field value now s).
Proof.
  unfold updateField, Zustand.set, Zustand.assign; cbn.
  destruct (syncStatus s); cbn; auto.
Qed.

Lemma set_field_twice (f : Field) (v w : Js.number) (b : BudgetFields) :
  set_field f w (set_field f v b) = set_field f w b.
Proof. destruct f; reflexivity. Qed.

Lemma set_field_comm (f g : Field) (v w : Js.number) (b : BudgetFields) :
  f <> g -> set_field g w (set_field f v b) = set_field f v (set_field g w b).
Proof. destruct f, g; intros H; try reflexivity; contradict H; reflexivity. Qed.

(** X6: of two [updateField] calls on the same field the later value is the
    one kept, as if the earlier call had not been made; two calls on
    different fields give the same budget in either order. *)
Theorem updateField_compose (f g : Field) (v w : Js.number) (t u : string)
    (s : BudgetState) :
  budget (updateField f w u (updateField f v t s)) = budget (updateField f w u s)
  /\ (f <> g ->
      budget (updateField g w u (updateField f v t s))
      = budget (updateField f v t (updateField g w u s))).
Proof.
  unfold updateField, Zustand.set, Zustand.assign; cbn. split.
  - apply set_field_twice.
  - apply set_field_comm.
Qed.

Lemma updateField_compose_witness :
  budget (updateField Food 2 "u" (updateField Income 1 "t" initialState))
  = budget (updateField Income 1 "t" (updateField Food 2 "u" initialState)).
Proof.
  apply (proj2 (updateField_compose Income Food 1 2 "t" "u" initialState)).
  discriminate.
Defined.

Lemma updateFields_history (edits : list (Field * Js.number * string))
    (s : BudgetState) :
  history (updateFields edits s) = history s.
Proof.
  unfold updateFields. revert s.
  induction edits as [|e edits IH]; intros s; [reflexivity|].
  cbn [fold_left]. rewrite IH. reflexivity.
Qed.

(** X7: a snapshot taken with some id, then any number of edits, then
    [restoreSnapshot] with that id: the budget is again the one of the
    moment of the snapshot, and the status is [local-only]. The snapshot
    just taken is found first, even if an older one carries the same id. *)
Theorem restoreSnapshot_after_addSnapshot (uuid now later : string)
    (edits : list (Field * Js.number * string)) (s : BudgetState) :
  budget (restoreSnapshot uuid later (updateFields edits (addSnapshot uuid now s)))
  = budget s
  /\ syncStatus (restoreSnapshot uuid later
                   (updateFields edits (addSnapshot uuid now s))) = LocalOnly.
Proof.
  unfold restoreSnapshot, Zustand.set.
  rewrite updateFields_history, addSnapshot_history.
  cbn [take List.find snapshot_of Snapshot.id fst snd].
  rewrite String.eqb_refl. cbn. rewrite spread_id. split; reflexivity.
Qed.

Lemma addSnapshots_ids (env : list (string * string)) (s : BudgetState) :
  20 <= length env ->
  Snapshot.id <$> history (addSnapshots env s) = fst <$> reverse (drop (length env - 20) env).
Proof.
  intros Hlen.
  rewrite addSnapshots_history by (intros ->; cbn in Hlen; lia).
  rewrite take_app_le by (rewrite length_fmap, length_reverse; lia).
  rewrite <- fmap_take, take_reverse, <- list_fmap_compose.
  apply list_fmap_ext. intros i [u t] _. reflexivity.
Qed.

(** X8: once twenty or more further snapshots have been taken, an id that
    none of the last twenty carries restores nothing: [restoreSnapshot]
    returns the state it was given, whatever the history held before. *)
Theorem restoreSnapshot_evicted (id later : string) (env : list (string * string))
    (s : BudgetState) :
  20 <= length env ->
  id ∉ fst <$> drop (length env - 20) env ->
  restoreSnapshot id later (addSnapshots env s) = addSnapshots env s.
Proof.
  intros Hlen Hid.
  unfold restoreSnapshot, Zustand.set.
  rewrite find_id_None; [apply assign_whole|].
  rewrite addSnapshots_ids by exact Hlen.
  rewrite fmap_reverse, elem_of_reverse. exact Hid.
Qed.

Lemma restoreSnapshot_evicted_witness :
  restoreSnapshot "snap-1" "2025-02-01T00:00:00.000Z" (addSnapshots draws20 synced_state)
  = addSnapshots draws20 synced_state.
Proof.
  apply restoreSnapshot_evicted.
  - vm_compute. lia.
  - apply (bool_decide_unpack _). vm_compute. reflexivity.
Defined.

End MoreStore.

(** ** The page: inputs, chart, login *)

Section Page.
Import View.

(** X10: [onFieldChange] never stores NaN: a reading that is NaN is stored
    as 0, any other reading as it is. *)
Theorem onFieldChange_spec (key : Field) (next : Js.number) (now : string)
    (s : BudgetState) :
  PrimFloat.is_nan (get_field key (budget (onFieldChange key next now s))) = false
  /\ (PrimFloat.is_nan next = true ->
      get_field key (budget (onFieldChange key next now s)) = 0)
  /\ (PrimFloat.is_nan next = false ->
      get_field key (budget (onFieldChange key next now s)) = next).
Proof.
  unfold onFieldChange, updateField, Zustand.set, Zustand.assign; cbn.
  rewrite get_set_field_eq.
  destruct (PrimFloat.is_nan next) eqn:E; repeat split; try discriminate;
    try reflexivity; exact E.
Qed.

Lemma onFieldChange_spec_witness :
  get_field Food (budget (onFieldChange Food (0 / 0) "t" initialState)) = 0
  /\ get_field Food (budget (onFieldChange Food 25000 "t" initialState)) = 25000.
Proof.
  split.
  - exact (proj1 (proj2 (onFieldChange_spec Food (0 / 0) "t" initialState)) eq_refl).
  - exact (proj2 (proj2 (onFieldChange_spec Food 25000 "t" initialState)) eq_refl).
Defined.

Lemma chartData_unfold (b : BudgetFields) :
  chartData b
  = List.filter (fun item => Js.gt (value item) 0)
      [ mkItem "Monthly Bills" (monthlyBills b); mkItem "Food" (food b);
        mkItem "Transport" (transport b); mkItem "Subscriptions" (subscriptions b);
        mkItem "Miscellaneous" (miscellaneous b) ].
Proof. reflexivity. Qed.

(** X11: the chart shows exactly the expense fields that are above zero, in
    the order of [CATEGORY_FIELDS]: every item has a value above zero, an
    expense field above zero has its item, the income never counts, and
    the chart is empty exactly when no expense field is above zero. Each
    cell gets one of the five colours. *)
Theorem chartData_spec (b : BudgetFields) :
  Forall (fun item => Js.gt (value item) 0 = true) (chartData b)
  /\ (forall field label,
        (field, label) ∈ CATEGORY_FIELDS ->
        (mkItem label (get_field field b) ∈ chartData b
         <-> Js.gt (get_field field b) 0 = true))
  /\ (forall v, chartData (set_field Income v b) = chartData b)
  /\ (chartData b = [] <->
        forall field, field <> Income -> Js.gt (get_field field b) 0 = false)
  /\ length (chartData b) <= 5
  /\ Forall is_Some (fills b).
Proof.
  split; [|split; [|split; [|split; [|split]]]].
  - apply Forall_forall. intros item Hin.
    apply list_elem_of_In, filter_In in Hin. tauto.
  - intros field label Hin. rewrite list_elem_of_In. unfold chartData.
    rewrite filter_In. cbn [value]. split; [tauto|]. intros Hgt. split; [|exact Hgt].
    apply list_elem_of_In in Hin.
    apply (in_map (fun field => mkItem field.2 (get_field field.1 b))) in Hin.
    exact Hin.
  - intros v. reflexivity.
  - rewrite chartData_unfold. cbn [List.filter value]. split.
    + intros H field Hf.
      destruct (Js.gt (monthlyBills b) 0) eqn:E1; [discriminate|].
      destruct (Js.gt (food b) 0) eqn:E2; [discriminate|].
      destruct (Js.gt (transport b) 0) eqn:E3; [discriminate|].
      destruct (Js.gt (subscriptions b) 0) eqn:E4; [discriminate|].
      destruct (Js.gt (miscellaneous b) 0) eqn:E5; [discriminate|].
      destruct field; cbn [get_field]; congruence.
    + intros H.
      pose proof (H MonthlyBills ltac:(discriminate)) as H1.
      pose proof (H Food ltac:(discriminate)) as H2.
      pose proof (H Transport ltac:(discriminate)) as H3.
      pose proof (H Subscriptions ltac:(discriminate)) as H4.
      pose proof (H Miscellaneous ltac:(discriminate)) as H5.
      cbn [get_field] in *. rewrite H1, H2, H3, H4, H5. reflexivity.
  - rewrite chartData_unfold.
    etransitivity; [apply filter_length_le|]. cbn. lia.
  - assert (length (chartData b) <= 5) as Hlen.
    { rewrite chartData_unfold.
      etransitivity; [apply filter_length_le|]. cbn. lia. }
    unfold fills. apply Forall_forall. intros o Ho.
    apply list_elem_of_In, in_map_iff in Ho as (i & <- & Hi).
    apply in_seq in Hi. unfold fill. apply lookup_lt_is_Some.
    apply Nat.mod_upper_bound. discriminate.
Qed.

Lemma chartData_spec_witness :
  mkItem "Food" (get_field Food no_income_budget) ∈ chartData no_income_budget.
Proof.
  apply (proj1 (proj2 (chartData_spec no_income_budget)) Food "Food"%string).
  - apply list_elem_of_In. right. left. reflexivity.
  - reflexivity.
Defined.

(** X12: [login] changes nothing of the store but the token. An answer that
    is not 2xx, a fetch that rejects and a body that cannot be read leave
    the whole store as it was and set [authError]; a 2xx answer that is read
    stores its [token] and leaves [authError] cleared. *)
Theorem login_spec (a : Auth) :
  (forall r,
      budget (Home.store (page (login r a))) = budget (Home.store (page a))
      /\ syncStatus (Home.store (page (login r a))) = syncStatus (Home.store (page a))
      /\ history (Home.store (page (login r a))) = history (Home.store (page a))
      /\ userEmail (Home.store (page (login r a))) = userEmail (Home.store (page a))
      /\ lastUpdatedAt (Home.store (page (login r a))) = lastUpdatedAt (Home.store (page a))
      /\ lastSyncedAt (Home.store (page (login r a))) = lastSyncedAt (Home.store (page a)))
  /\ (forall m,
        page (login (Http.Rejected m) a) = page a
        /\ authError (login (Http.Rejected m) a) = Some m)
  /\ (forall parsed,
        page (login (Http.Resolved false parsed) a) = page a
        /\ authError (login (Http.Resolved false parsed) a)
           = Some "Invalid demo credentials"%string)
  /\ (forall m,
        page (login (Http.Resolved true (Http.BodyThrows m)) a) = page a
        /\ authError (login (Http.Resolved true (Http.BodyThrows m)) a) = Some m)
  /\ (forall data,
        authToken (Home.store (page (login (Http.Resolved true (Http.BodyData data)) a)))
        = data_token data
        /\ authError (login (Http.Resolved true (Http.BodyData data)) a) = None).
Proof.
  split; [|split; [|split; [|split]]].
  - intros [m|[|] [m|d]]; repeat split.
  - intros m. split; reflexivity.
  - intros [m|d]; split; reflexivity.
  - intros m. split; reflexivity.
  - intros d. split; reflexivity.
Qed.

Lemma step_ok (a : Auth) (e : Event) : page_ok a -> page_ok (step a e).
Proof.
  intros [Hh Hs]. destruct e as [key next now|email|pw| |r| |r now| |r now|uuid now|id now];
    cbn [step]; try (split; [exact Hh|exact Hs]).
  - split; [exact Hh|]. cbn.
    destruct (syncStatus (Home.store (page a))); cbn; discriminate.
  - destruct r as [m|[|] [m|d]]; split; try exact Hh; try exact Hs.
  - split; [exact Hh|]. cbn. discriminate.
  - destruct r as [m|[|] [m|d]]; split; try exact Hh; cbn; try discriminate; eauto.
  - destruct r as [m|ok [m|[[b|] u]]]; split; try exact Hh; try exact Hs; cbn; eauto.
  - split; [apply addSnapshot_length|exact Hs].
  - unfold page_ok, on_page, Home.on_store. cbn [page Home.store].
    unfold restoreSnapshot, Zustand.set.
    destruct (List.find _ _) as [snap|].
    + split; [exact Hh|]. cbn. discriminate.
    + rewrite assign_whole. split; [exact Hh|exact Hs].
Qed.

(** X9: whatever happens on the page, in whatever order, the history holds
    at most twenty snapshots, and a status of [synced] comes with a
    [lastSyncedAt] timestamp. *)
Theorem page_invariant (events : list Event) :
  length (history (Home.store (page (run events initial)))) <= 20
  /\ (syncStatus (Home.store (page (run events initial))) = Synced ->
      is_Some (lastSyncedAt (Home.store (page (run events initial))))).
Proof.
  change (page_ok (run events initial)). unfold run.
  assert (page_ok initial) as H0.
  { split; [cbn; lia|]. cbn. discriminate. }
  revert H0. generalize initial.
  induction events as [|e events IH]; intros a Ha; [exact Ha|].
  cbn [fold_left]. apply IH, step_ok, Ha.
Qed.

End Page.

(** ** More on the backend *)

Section MoreBackend.

Lemma substring_all (s : string) : String.substring 0 (String.length s) s = s.
Proof. induction s as [|c s IH]; [reflexivity|]. cbn. rewrite IH. reflexivity. Qed.

Lemma replace_bearer (t : string) :
  Server.replace "Bearer " EmptyString ("Bearer " ++ t) = t.
Proof.
  destruct t as [|c t]; [reflexivity|].
  simpl. rewrite substring_all. reflexivity.
Qed.

Lemma syncRequest_token (s : BudgetState) :
  Server.token (Home.syncRequest s)
  = match authToken s with Some t => t | None => EmptyString end.
Proof.
  unfold Server.token, Home.syncRequest. cbn [Http.authorization].
  destruct (authToken s) as [[|c t]|]; cbn [Js.truthy_string Js.nullish];
    try reflexivity.
  apply (replace_bearer (String c t)).
Qed.


Lemma base64_nonempty (s : string) : s <> EmptyString -> Login.base64 s <> EmptyString.
Proof. destruct s as [|a [|b [|c r]]]; [congruence| | |]; intros _; discriminate. Qed.

Lemma auth_login_cases (E P : string) (body : Login.Body) (now : N)
    (st : Server.State) :
  (Login.body_email body = Some E /\ Login.body_password body = Some P
   /\ Login.auth_login E P body now st
      = (Server.mkState (Server.memory st)
           (<[Login.base64 (E ++ ":" ++ pretty now) := E]> (Server.tokenMap st)),
         Login.mkResponse 200
           (Login.JToken (Login.base64 (E ++ ":" ++ pretty now)) E)))
  \/ (~ (Login.body_email body = Some E /\ Login.body_password body = Some P)
      /\ Login.auth_login E P body now st
         = (st, Login.mkResponse 401 (Login.JError "Invalid credentials"))).
Proof.
  unfold Login.auth_login.
  destruct (Login.body_email body) as [e|]; [|right; split; [intros [? ?]; discriminate|reflexivity]].
  destruct (Login.body_password body) as [p|]; [|right; split; [intros [? ?]; discriminate|reflexivity]].
  destruct (String.eqb_spec e E) as [->|He]; cbn [andb].
  - destruct (String.eqb_spec p P) as [->|Hp].
    + left. repeat split.
    + right. split; [intros [_ ?]; congruence|reflexivity].
  - right. split; [intros [? _]; congruence|reflexivity].
Qed.

(** X14: [/auth/login] answers 200 exactly when the body carries the demo
    email and the demo password, and 401 otherwise. On 200 the token is the
    base64 text of [email:now], it is answered with the email, and the
    token map sends it to the email; on 401 nothing changes. The saved
    budgets are never touched. *)
Theorem auth_login_spec (DEMO_EMAIL DEMO_PASSWORD : string) (body : Login.Body)
    (now : N) (st : Server.State) :
  (Login.status (Login.auth_login DEMO_EMAIL DEMO_PASSWORD body now st).2 = 200%nat <->
     Login.body_email body = Some DEMO_EMAIL
     /\ Login.body_password body = Some DEMO_PASSWORD)
  /\ (Login.status (Login.auth_login DEMO_EMAIL DEMO_PASSWORD body now st).2 <> 200%nat ->
      Login.auth_login DEMO_EMAIL DEMO_PASSWORD body now st
      = (st, Login.mkResponse 401 (Login.JError "Invalid credentials")))
  /\ (Login.status (Login.auth_login DEMO_EMAIL DEMO_PASSWORD body now st).2 = 200%nat ->
      Login.json (Login.auth_login DEMO_EMAIL DEMO_PASSWORD body now st).2
      = Login.JToken (Login.base64 (DEMO_EMAIL ++ ":" ++ pretty now)) DEMO_EMAIL
      /\ Server.tokenMap (Login.auth_login DEMO_EMAIL DEMO_PASSWORD body now st).1
         = <[Login.base64 (DEMO_EMAIL ++ ":" ++ pretty now) := DEMO_EMAIL]>
             (Server.tokenMap st))
  /\ Server.memory (Login.auth_login DEMO_EMAIL DEMO_PASSWORD body now st).1
     = Server.memory st.
Proof.
  destruct (auth_login_cases DEMO_EMAIL DEMO_PASSWORD body now st)
    as [(He & Hp & ->)|(Hn & ->)]; cbn [fst snd Login.status Login.json
                                         Server.tokenMap Server.memory].
  - repeat split; try assumption; try reflexivity. intros H. contradict H. reflexivity.
  - repeat split; try reflexivity; try discriminate; try tauto.
Qed.

Lemma auth_login_spec_witness :
  Login.json (Login.auth_login Login.default_email Login.default_password
                demo_login 0 Login.started).2
  = Login.JToken (Login.base64 (Login.default_email ++ ":" ++ pretty 0%N))
                 Login.default_email
  /\ Server.tokenMap (Login.auth_login Login.default_email Login.default_password
                        demo_login 0 Login.started).1
     = <[Login.base64 (Login.default_email ++ ":" ++ pretty 0%N) := Login.default_email]>
         (Server.tokenMap Login.started).
Proof.
  apply (proj1 (proj2 (proj2
           (auth_login_spec Login.default_email Login.default_password
                            demo_login 0 Login.started)))).
  reflexivity.
Defined.

Lemma budget_sync_tokenMap (req : Http.Request) (now : string) (st : Server.State) :
  Server.tokenMap (Server.budget_sync req now st).1 = Server.tokenMap st.
Proof.
  unfold Server.budget_sync. cbv zeta.
  destruct (Js.nullish_opt _ _) as [r|]; [|reflexivity].
  destruct (negb (Js.truthy_string r)); [reflexivity|].
  destruct (_ && _ && _); [reflexivity|].
  destruct (Http.body_budget _); reflexivity.
Qed.

Lemma serve_tokens_ok (E P : string) (st : Server.State) (c : Login.Call) :
  tokens_ok E st -> tokens_ok E (Login.serve E P st c).
Proof.
  intros Hok. destruct c as [body now|req now|email]; cbn [Login.serve].
  - unfold Login.auth_login.
    destruct (Login.body_email body) as [e|], (Login.body_password body) as [p|];
      try exact Hok.
    destruct (String.eqb e E) eqn:Ee; cbn [andb]; [|exact Hok].
    destruct (String.eqb p P); [|exact Hok].
    apply String.eqb_eq in Ee. subst e. cbn [fst].
    intros k v. cbn [Server.tokenMap]. rewrite lookup_insert.
    case_decide as Hk.
    + intros [= <-]. split; [reflexivity|]. rewrite <- Hk.
      apply base64_nonempty. destruct E; discriminate.
    + apply Hok.
  - intros k v. rewrite budget_sync_tokenMap. apply Hok.
  - exact Hok.
Qed.

Lemma serve_all_tokens_ok (E P : string) (calls : list Login.Call) :
  tokens_ok E (Login.serve_all E P calls Login.started).
Proof.
  unfold Login.serve_all.
  assert (tokens_ok E Login.started) as H0.
  { intros k v. cbn. rewrite lookup_empty. discriminate. }
  revert H0. generalize Login.started.
  induction calls as [|c calls IH]; intros st Hst; [exact Hst|].
  cbn [fold_left]. apply IH, serve_tokens_ok, Hst.
Qed.

(** X15: whatever calls the process has served since it started, every
    token of the token map is mapped to the demo email, and no token is the
    empty string. *)
Theorem served_tokens (DEMO_EMAIL DEMO_PASSWORD : string) (calls : list Login.Call)
    (k v : string) :
  Server.tokenMap (Login.serve_all DEMO_EMAIL DEMO_PASSWORD calls Login.started) !! k
    = Some v ->
  v = DEMO_EMAIL /\ k <> EmptyString.
Proof. apply serve_all_tokens_ok. Qed.

Lemma served_tokens_witness :
  Login.default_email = Login.default_email
  /\ Login.base64 (Login.default_email ++ ":" ++ pretty 0%N) <> EmptyString.
Proof.
  apply (served_tokens Login.default_email Login.default_password
           [Login.PostLogin demo_login 0]).
  vm_compute. reflexivity.
Defined.

(** A request that presents no token known to the map is judged on its body
    alone. *)
Lemma budget_sync_unknown_token (req : Http.Request) (now : string)
    (st : Server.State) :
  Server.tokenMap st !! Server.token req = None ->
  Server.budget_sync req now st
  = match Http.body_email (Http.body req), Http.body_budget (Http.body req) with
    | Some e, Some b =>
        if Js.truthy_string e
        then (Server.save (Server.mkRecord e b now) st,
              Http.mkResponse 200 (Http.JSynced true now))
        else (st, Http.mkResponse 400 (Http.JError "Email is required"))
    | Some e, None =>
        if Js.truthy_string e
        then (st, Http.mkResponse 400 (Http.JError "Budget payload missing"))
        else (st, Http.mkResponse 400 (Http.JError "Email is required"))
    | None, _ => (st, Http.mkResponse 400 (Http.JError "Email is required"))
    end.
Proof.
  intros Hn. unfold Server.budget_sync. cbv zeta.
  fold (Server.token req). rewrite Hn.
  destruct (Http.body_email (Http.body req)) as [e|]; cbn [Js.nullish_opt];
    [|reflexivity].
  destruct (Js.truthy_string e); cbn [negb Server.truthy andb];
    [|destruct (Http.body_budget (Http.body req)); reflexivity].
  rewrite andb_false_r. cbn [andb].
  destruct (Http.body_budget (Http.body req)); reflexivity.
Qed.

(** X16: a request without [Authorization] header is never answered 403,
    whatever the process has served before: when its body names a non-empty
    email and a budget it is answered 200 and the record of that email is
    overwritten, by a caller that proved no identity. *)
Theorem budget_sync_without_header (DEMO_EMAIL DEMO_PASSWORD : string)
    (calls : list Login.Call) (req : Http.Request) (now : string) :
  Http.authorization req = None ->
  Http.status (Server.budget_sync req now
                 (Login.serve_all DEMO_EMAIL DEMO_PASSWORD calls Login.started)).2
    <> 403%nat
  /\ (forall e b,
        Http.body_email (Http.body req) = Some e -> e <> EmptyString ->
        Http.body_budget (Http.body req) = Some b ->
        Server.budget_sync req now
          (Login.serve_all DEMO_EMAIL DEMO_PASSWORD calls Login.started)
        = (Server.save (Server.mkRecord e b now)
             (Login.serve_all DEMO_EMAIL DEMO_PASSWORD calls Login.started),
           Http.mkResponse 200 (Http.JSynced true now))).
Proof.
  intros Hh.
  set (st := Login.serve_all DEMO_EMAIL DEMO_PASSWORD calls Login.started).
  assert (Server.tokenMap st !! Server.token req = None) as Hn.
  { unfold Server.token. rewrite Hh. cbn.
    destruct (Server.tokenMap st !! EmptyString) as [v|] eqn:E; [|reflexivity].
    destruct (serve_all_tokens_ok DEMO_EMAIL DEMO_PASSWORD calls _ _ E) as [_ Hk].
    congruence. }
  rewrite (budget_sync_unknown_token _ _ _ Hn). split.
  - destruct (Http.body_email (Http.body req)) as [e|];
      [|cbn; discriminate].
    destruct (Http.body_budget (Http.body req)) as [b|];
      destruct (Js.truthy_string e); cbn; discriminate.
  - intros e b -> He ->. rewrite (proj2 (truthy_string_iff e) He). reflexivity.
Qed.

Lemma budget_sync_without_header_witness :
  Server.budget_sync anonymous_request "2025-01-01T00:00:00.000Z"
    (Login.serve_all Login.default_email Login.default_password
       [Login.PostLogin demo_login 0] Login.started)
  = (Server.save (Server.mkRecord "someone@else.org" overspent_budget
                    "2025-01-01T00:00:00.000Z")
       (Login.serve_all Login.default_email Login.default_password
          [Login.PostLogin demo_login 0] Login.started),
     Http.mkResponse 200 (Http.JSynced true "2025-01-01T00:00:00.000Z")).
Proof.
  apply (proj2 (budget_sync_without_header Login.default_email Login.default_password
                  [Login.PostLogin demo_login 0] anonymous_request
                  "2025-01-01T00:00:00.000Z" eq_refl)).
  - reflexivity.
  - discriminate.
  - reflexivity.
Defined.

(** X17: a sync answered 200 is what [/budget/latest] returns next for the
    resolved email: the budget sent, with the time of the sync; the records
    of all other emails are as they were. *)
Theorem budget_latest_after_sync (req : Http.Request) (now : string)
    (st : Server.State) :
  Http.status (Server.budget_sync req now st).2 = 200%nat ->
  exists e b,
    Server.resolvedEmail req st = Some e
    /\ Http.body_budget (Http.body req) = Some b
    /\ Server.budget_latest e (Server.budget_sync req now st).1
       = Http.mkResponse 200 (Http.JLatest (Some b) (Some now))
    /\ (forall e', e' <> e ->
          Server.latest e' (Server.budget_sync req now st).1 = Server.latest e' st).
Proof.
  unfold Server.budget_sync. cbv zeta.
  fold (Server.token req). fold (Server.tokenEmail req st).
  fold (Server.resolvedEmail req st).
  destruct (Server.resolvedEmail req st) as [r|]; [|discriminate].
  destruct (negb (Js.truthy_string r)); [discriminate|].
  destruct (_ && _ && _); [discriminate|].
  destruct (Http.body_budget (Http.body req)) as [b|]; [|discriminate].
  intros _. exists r, b. cbn [fst].
  split; [reflexivity|]. split; [reflexivity|]. split.
  - unfold Server.budget_latest, Server.latest, Server.save. cbn.
    rewrite lookup_insert_eq. reflexivity.
  - intros e' Hne. unfold Server.latest, Server.save. cbn.
    apply lookup_insert_ne. congruence.
Qed.

Lemma budget_latest_after_sync_witness :
  exists e b,
    Server.resolvedEmail request_without_email logged_in_server = Some e
    /\ Http.body_budget (Http.body request_without_email) = Some b
    /\ Server.budget_latest e
         (Server.budget_sync request_without_email "2025-01-01T00:00:00.000Z"
            logged_in_server).1
       = Http.mkResponse 200 (Http.JLatest (Some b) (Some "2025-01-01T00:00:00.000Z"%string))
    /\ (forall e', e' <> e ->
          Server.latest e'
            (Server.budget_sync request_without_email "2025-01-01T00:00:00.000Z"
               logged_in_server).1
          = Server.latest e' logged_in_server).
Proof.
  apply budget_latest_after_sync. vm_compute. reflexivity.
Defined.

Lemma budget_sync_mismatch (req : Http.Request) (now : string) (st : Server.State) :
  Server.mismatch req st ->
  Server.budget_sync req now st
  = (st, Http.mkResponse 403 (Http.JError "Token does not match email")).
Proof.
  intros Hm. pose proof Hm as (e & te & He & Hne & Ht & Hte & Hd).
  assert (Server.resolvedEmail req st = Some e) as Hr.
  { unfold Server.resolvedEmail. rewrite He. reflexivity. }
  pose proof (proj2 (mismatch_test req st e Hr Hne) Hm) as Hc.
  unfold Server.budget_sync. cbv zeta.
  fold (Server.token req). fold (Server.tokenEmail req st).
  fold (Server.resolvedEmail req st).
  rewrite Hr in *. cbv beta iota.
  rewrite (proj2 (truthy_string_iff e) Hne). cbn [negb].
  rewrite Hc. reflexivity.
Qed.

Lemma budget_sync_memory (req : Http.Request) (now : string) (st : Server.State) :
  Server.memory (Server.budget_sync req now st).1 = Server.memory st
  \/ exists e b, e <> EmptyString
       /\ Server.memory (Server.budget_sync req now st).1
          = <[e := Server.mkRecord e b now]> (Server.memory st).
Proof.
  unfold Server.budget_sync. cbv zeta.
  destruct (Js.nullish_opt _ _) as [r|]; [|left; reflexivity].
  destruct (Js.truthy_string r) eqn:Hr; cbn [negb]; [|left; reflexivity].
  destruct (_ && _ && _); [left; reflexivity|].
  destruct (Http.body_budget _) as [b|]; [|left; reflexivity].
  right. exists r, b. split; [apply truthy_string_iff, Hr | reflexivity].
Qed.

Lemma serve_records_ok (E P : string) (st : Server.State) (c : Login.Call) :
  records_ok st -> records_ok (Login.serve E P st c).
Proof.
  intros Hok. destruct c as [body now|req now|email]; cbn [Login.serve].
  - destruct (auth_login_cases E P body now st) as [(_ & _ & ->)|(_ & ->)];
      exact Hok.
  - destruct (budget_sync_memory req now st) as [Hm|(e & b & He & Hm)];
      intros k r; rewrite Hm; [apply Hok|].
    rewrite lookup_insert. case_decide as Hk.
    + intros [= <-]. subst k. split; [reflexivity|exact He].
    + apply Hok.
  - exact Hok.
Qed.

(** X20: whatever calls the process has served since it started, every
    record it holds is saved under the email the record itself carries, and
    no record is saved under the empty email. *)
Theorem served_records (DEMO_EMAIL DEMO_PASSWORD : string) (calls : list Login.Call)
    (e : string) (r : Server.BudgetRecord) :
  Server.latest e (Login.serve_all DEMO_EMAIL DEMO_PASSWORD calls Login.started)
    = Some r ->
  Server.email r = e /\ e <> EmptyString.
Proof.
  unfold Server.latest, Login.serve_all.
  assert (records_ok Login.started) as H0.
  { intros k v. cbn. rewrite lookup_empty. discriminate. }
  revert H0. generalize Login.started.
  induction calls as [|c calls IH]; intros st Hst; [apply Hst|].
  cbn [fold_left]. apply IH, serve_records_ok, Hst.
Qed.

Lemma served_records_witness :
  Server.email (Server.mkRecord "someone@else.org" overspent_budget
                  "2025-01-01T00:00:00.000Z") = "someone@else.org"%string
  /\ "someone@else.org"%string <> EmptyString.
Proof.
  apply (served_records Login.default_email Login.default_password
           [Login.PostSync anonymous_request "2025-01-01T00:00:00.000Z"]).
  vm_compute. reflexivity.
Defined.

Lemma prefix_bearer_space (s : string) :
  String.prefix "Bearer " s = true -> space ∈ chars s.
Proof.
  intros H. apply String.prefix_correct in H.
  destruct s as [|c1 [|c2 [|c3 [|c4 [|c5 [|c6 [|c7 s]]]]]]]; cbn in H;
    try discriminate.
  injection H as _ _ _ _ _ _ ->. cbn [chars].
  do 6 apply list_elem_of_further. apply list_elem_of_here.
Qed.

Lemma replace_no_space (s : string) :
  space ∉ chars s -> Server.replace "Bearer " EmptyString s = s.
Proof.
  induction s as [|c s IH]; intros Hs; [reflexivity|].
  cbn [Server.replace].
  destruct (String.prefix "Bearer " (String c s)) eqn:Hp.
  - exfalso. apply Hs, prefix_bearer_space, Hp.
  - f_equal. apply IH. intros Hin. apply Hs. cbn [chars].
    apply list_elem_of_further, Hin.
Qed.

Lemma digit_not_space (n : N) : Login.digit n <> space.
Proof.
  unfold Login.digit. generalize (N.to_nat n). intros k.
  do 64 (destruct k as [|k]; [vm_compute; discriminate|]).
  vm_compute. discriminate.
Qed.

Lemma base64_no_space (s : string) : space ∉ chars (Login.base64 s).
Proof.
  revert s. fix IH 1. intros s.
  destruct s as [|a [|b [|c r]]]; cbn [Login.base64 chars].
  - apply not_elem_of_nil.
  - rewrite !not_elem_of_cons. repeat split;
      try (intros E; symmetry in E; revert E; apply digit_not_space);
      try (vm_compute; discriminate). apply not_elem_of_nil.
  - rewrite !not_elem_of_cons. repeat split;
      try (intros E; symmetry in E; revert E; apply digit_not_space);
      try (vm_compute; discriminate). apply not_elem_of_nil.
  - rewrite !not_elem_of_cons. repeat split;
      try (intros E; symmetry in E; revert E; apply digit_not_space).
    apply IH.
Qed.

(** X21: the handler does not require the [Bearer] prefix: a header that is
    the bare token of a login, without the prefix, is read as that token,
    for a token never contains the space that ends ["Bearer "]. *)
Theorem bare_token_accepted (payload : string) (body : Http.SyncBody) :
  Server.token (Http.mkRequest (Some (Login.base64 payload)) body)
  = Login.base64 payload.
Proof.
  unfold Server.token. cbn [Http.authorization Js.nullish].
  apply replace_no_space, base64_no_space.
Qed.

End MoreBackend.

(** ** The page and the backend together *)

Section EndToEnd.



(** X19: after a login with the demo credentials the page holds the token
    the backend registered, and the check of the sync handler works on it:
    a sync for the demo email is answered 200 and saved, a sync for any
    other non-empty email is answered 403 and nothing is saved. *)
Theorem sync_after_login (DEMO_EMAIL DEMO_PASSWORD : string) (a : View.Auth)
    (login_time : N) (now : string) (st : Server.State) :
  DEMO_EMAIL <> EmptyString ->
  View.loginRequest a = (DEMO_EMAIL, DEMO_PASSWORD) ->
  let served := Login.auth_login DEMO_EMAIL DEMO_PASSWORD
                  (Wire.login_body (View.loginRequest a)) login_time st in
  let a' := View.login (Wire.login_answer served.2) a in
  authToken (Home.store (View.page a'))
    = Some (Login.base64 (DEMO_EMAIL ++ ":" ++ pretty login_time))
  /\ View.authError a' = None
  /\ Server.budget_sync (Home.syncRequest (Home.store (View.page a'))) now served.1
     = (Server.save (Server.mkRecord DEMO_EMAIL (budget (Home.store (View.page a))) now)
          served.1,
        Http.mkResponse 200 (Http.JSynced true now))
  /\ (forall other,
        other <> EmptyString -> other <> DEMO_EMAIL ->
        Server.budget_sync
          (Home.syncRequest (setUserEmail other (Home.store (View.page a')))) now served.1
        = (served.1, Http.mkResponse 403 (Http.JError "Token does not match email"))).
Proof.
  intros Hne Hreq. cbv zeta. rewrite Hreq.
  assert (userEmail (Home.store (View.page a)) = DEMO_EMAIL) as Hu
      by (unfold View.loginRequest in Hreq; congruence).
  destruct (auth_login_cases DEMO_EMAIL DEMO_PASSWORD
              (Wire.login_body (DEMO_EMAIL, DEMO_PASSWORD)) login_time st)
    as [(_ & _ & ->)|(Hn & _)]; [|exfalso; apply Hn; split; reflexivity].
  cbn [fst snd]. set (tok := Login.base64 (DEMO_EMAIL ++ ":" ++ pretty login_time)).
  assert (tok <> EmptyString) as Htok
      by (apply base64_nonempty; destruct DEMO_EMAIL; discriminate).
  set (st' := Server.mkState (Server.memory st) (<[tok := DEMO_EMAIL]> (Server.tokenMap st))).
  split; [reflexivity|]. split; [reflexivity|].
  assert (forall s, authToken s = Some tok ->
            Server.tokenEmail (Home.syncRequest s) st' = Some DEMO_EMAIL) as Hte.
  { intros s Hs. unfold Server.tokenEmail. rewrite syncRequest_token, Hs.
    unfold st'. cbn [Server.tokenMap]. apply lookup_insert_eq. }
  split.
  - rewrite <- Hu at 2.
    apply (budget_sync_of_page
             (Home.store (View.page (View.login
                (Wire.login_answer (Login.mkResponse 200 (Login.JToken tok DEMO_EMAIL))) a)))
             now st').
    + cbn. rewrite Hu. exact Hne.
    + intros (e & te & He & _ & Ht & _ & Hd).
      rewrite Hte in Ht by reflexivity. cbn in He. congruence.
  - intros other Ho Hd. apply budget_sync_mismatch.
    exists other, DEMO_EMAIL. repeat split; try assumption; try congruence.
    apply Hte. reflexivity.
Qed.

Lemma sync_after_login_witness :
  authToken (Home.store (View.page
    (View.login
       (Wire.login_answer
          (Login.auth_login Login.default_email Login.default_password
             (Wire.login_body (View.loginRequest View.initial)) 0 Login.started).2)
       View.initial)))
  = Some (Login.base64 (Login.default_email ++ ":" ++ pretty 0%N)).
Proof.
  apply (sync_after_login Login.default_email Login.default_password View.initial 0
           "2025-01-01T00:00:00.000Z" Login.started).
  - discriminate.
  - reflexivity.
Defined.

End EndToEnd.
